(** * Settings page of bilibili_spider: credential and crawler-parameter logic

    Shallow embedding of [src/bilibili_spider/pages/settings_page.py]
    (class [SettingsPage]).  The page is a thin event-driven shell over three
    collaborators whose code lives elsewhere: the configuration object
    ([self.config]), the database handler ([self.db_handler]) and the
    cookie-acquisition helper ([CookieHelper]).  They are taken as an
    interface ([Collaborators]); every method may return a value or raise,
    and may change the collaborator's own state.  The toolkit's text widget
    is part of that interface too: what the cookie field holds after
    [setText] is decided by Qt, not by the page.

    A slot of the page is a computation that threads the page state, keeps the
    chronological list of collaborator calls and dialogs it performed, and ends
    either normally or with a pending Python exception. *)

From Stdlib Require Import List Bool ZArith NArith String Ascii Lia.
Import ListNotations.

Set Implicit Arguments.

(** ** Python strings *)

Module Py.

(** A Python [str] is a sequence of Unicode code points. *)
Definition str := list N.

(** [str.isspace] on one code point (CPython's [Py_UNICODE_ISSPACE]). *)
Definition isspace (c : N) : bool :=
  ((9 <=? c) && (c <=? 13) || (28 <=? c) && (c <=? 32)
   || (c =? 133) || (c =? 160) || (c =? 5760)
   || (8192 <=? c) && (c <=? 8202)
   || (c =? 8232) || (c =? 8233) || (c =? 8239) || (c =? 8287)
   || (c =? 12288))%N.

Fixpoint lstrip (s : str) : str :=
  match s with
  | [] => []
  | c :: s' => if isspace c then lstrip s' else s
  end.

Definition rstrip (s : str) : str := rev (lstrip (rev s)).

(** [s.strip()] with no argument. *)
Definition strip (s : str) : str := rstrip (lstrip s).

(** Truth value of a [str]: empty is false. *)
Definition truthy (s : str) : bool :=
  match s with [] => false | _ :: _ => true end.

(** Truth value of a value that is [None] or a [str]. *)
Definition truthy_opt (o : option str) : bool :=
  match o with None => false | Some s => truthy s end.

Fixpoint of_string (s : string) : str :=
  match s with
  | EmptyString => []
  | String a s' => N_of_ascii a :: of_string s'
  end.

Fixpoint eqb (s t : str) : bool :=
  match s, t with
  | [], [] => true
  | a :: s', b :: t' => (a =? b)%N && eqb s' t'
  | _, _ => false
  end.

(** [s.split(sep)] for a one-character separator. *)
Fixpoint split_on (sep : N) (s : str) : list str :=
  match s with
  | [] => [[]]
  | c :: s' =>
      if (c =? sep)%N then [] :: split_on sep s'
      else match split_on sep s' with
           | [] => [[c]]
           | h :: t => (c :: h) :: t
           end
  end.

Fixpoint take_until (sep : N) (s : str) : str :=
  match s with
  | [] => []
  | c :: s' => if (c =? sep)%N then [] else c :: take_until sep s'
  end.

End Py.

(** ** Outcomes, events and the slot monad *)

(** A call either returns or raises.  [Raise e] is an exception deriving
    from [Exception], carrying [str(e)]: the exceptions that the handlers of
    the page, all of them [except Exception], are written for.
    [KeyboardInterrupt], [SystemExit] and the like, which end the program,
    are outside the model. *)
Inductive outcome (A : Type) : Type :=
| Ret (a : A)
| Raise (e : Py.str).
Arguments Ret {A} a.
Arguments Raise {A} e.

(** The three crawler parameters: [DELAY_MIN], [DELAY_MAX], [MAX_RETRIES]. *)
Inductive param : Type := DelayMin | DelayMax | MaxRetries.

(** [QMessageBox.information], [QMessageBox.warning], [QMessageBox.critical]. *)
Inductive level : Type := Information | Warning | Critical.

(** [QMessageBox.StandardButton] values a Yes|No question can return. *)
Inductive StandardButton : Type := Yes | No.

(** The two confirmation questions (lines 449 and 468). *)
Inductive question : Type := AskClearCookie | AskClearDatabase.

(** Dialog texts, one constructor per literal of the source; the f-strings
    carry the exception text. *)
Inductive message : Type :=
| HelperStartFailed (e : Py.str)     (* line 351 *)
| CookieObtained                     (* line 365 *)
| CookieProcessFailed (e : Py.str)   (* line 367 *)
| LoadFailed (e : Py.str)            (* line 403 *)
| EnterCookie                        (* lines 411 and 428 *)
| FormatOk                           (* line 416 *)
| FormatBad                          (* lines 418 and 441 *)
| ValidateFailed (e : Py.str)        (* line 420 *)
| SaveOk                             (* line 439 *)
| SaveFailed (e : Py.str)            (* line 443 *)
| CookieCleared                      (* line 460 *)
| ClearFailed (e : Py.str)           (* line 462 *)
| DatabaseCleared                    (* line 477 *)
| DatabaseClearFailed (e : Py.str)   (* line 479 *)
| BackupInDevelopment                (* line 485 *)
| SettingsSaveFailed (e : Py.str).   (* line 506 *)

(** What a slot does to the outside, in the order it does it. *)
Inductive event : Type :=
| CfgSetCookie (s : Py.str)          (* config.set_cookie(s) *)
| CfgClearCookie                     (* config.clear_cookie() *)
| CfgValidateCookie (s : Py.str)     (* config.validate_cookie(s) *)
| CfgAssign (p : param) (v : Z)      (* config.DELAY_MIN = v, ... *)
| DbGetValidCookie                   (* db_handler.get_valid_cookie() *)
| DbSaveCookie (s : Py.str)          (* db_handler.save_cookie(s) *)
| DbClearCookies                     (* db_handler.clear_cookies() *)
| DbClearDatabase                    (* db_handler.clear_database() *)
| HelperNew                          (* CookieHelper(config, db_handler) *)
| Ask (q : question) (reply : StandardButton)
| MsgBox (l : level) (m : message).

Record run (S A : Type) : Type := Run {
  res : outcome A;
  post : S;
  log : list event
}.

Definition M (S A : Type) : Type := S -> run S A.

Definition ret {S A} (a : A) : M S A := fun s => Run (Ret a) s [].

Definition bind {S A B} (m : M S A) (f : A -> M S B) : M S B :=
  fun s =>
    match m s with
    | Run (Ret a) s1 l1 =>
        match f a s1 with
        | Run o s2 l2 => Run o s2 (l1 ++ l2)
        end
    | Run (Raise e) s1 l1 => Run (Raise e) s1 l1
    end.

(** [try: m except Exception as e: h(str(e))] *)
Definition try_except {S A} (m : M S A) (h : Py.str -> M S A) : M S A :=
  fun s =>
    match m s with
    | Run (Ret a) s1 l1 => Run (Ret a) s1 l1
    | Run (Raise e) s1 l1 =>
        match h e s1 with
        | Run o s2 l2 => Run o s2 (l1 ++ l2)
        end
    end.

Definition emit {S} (ev : event) : M S unit := fun s => Run (Ret tt) s [ev].

Definition gets {S A} (f : S -> A) : M S A := fun s => Run (Ret (f s)) s [].

Definition modify {S} (f : S -> S) : M S unit := fun s => Run (Ret tt) (f s) [].

Declare Scope slot_scope.
Delimit Scope slot_scope with slot.
Notation "x <- m ;; k" := (bind m (fun x => k))
  (at level 61, m at next level, right associativity) : slot_scope.
Notation "m ;; k" := (bind m (fun _ => k))
  (at level 61, right associativity) : slot_scope.

(** Events of a log that satisfy [p], in order. *)
Definition calls (p : event -> bool) (l : list event) : list event := filter p l.

Definition is_set_cookie (ev : event) : bool :=
  match ev with CfgSetCookie _ => true | _ => false end.
Definition is_db_save (ev : event) : bool :=
  match ev with DbSaveCookie _ => true | _ => false end.
Definition is_set_or_save (ev : event) : bool :=
  is_set_cookie ev || is_db_save ev.
Definition is_db_clear_cookies (ev : event) : bool :=
  match ev with DbClearCookies => true | _ => false end.
Definition is_db_clear_database (ev : event) : bool :=
  match ev with DbClearDatabase => true | _ => false end.
Definition is_cfg_clear (ev : event) : bool :=
  match ev with CfgClearCookie => true | _ => false end.
Definition is_db_get (ev : event) : bool :=
  match ev with DbGetValidCookie => true | _ => false end.
Definition is_cfg_call (ev : event) : bool :=
  match ev with
  | CfgSetCookie _ | CfgClearCookie | CfgValidateCookie _ | CfgAssign _ _ => true
  | _ => false
  end.
Definition is_db_call (ev : event) : bool :=
  match ev with
  | DbGetValidCookie | DbSaveCookie _ | DbClearCookies | DbClearDatabase => true
  | _ => false
  end.
Definition is_msgbox (ev : event) : bool :=
  match ev with MsgBox _ _ => true | _ => false end.
Definition is_assign (ev : event) : bool :=
  match ev with CfgAssign _ _ => true | _ => false end.

(** ** The collaborators *)

(** The configuration object as the page sees it.  [DELAY_MIN], [DELAY_MAX]
    and [MAX_RETRIES] are plain integer attributes, read in [init_ui] and
    assigned in [save_settings]; [cfg_rest] is everything else the object
    holds (the active cookie among it). *)
Record Config (C : Type) : Type := {
  DELAY_MIN : Z;
  DELAY_MAX : Z;
  MAX_RETRIES : Z;
  cfg_rest : C
}.

Definition set_param {C} (p : param) (v : Z) (c : Config C) : Config C :=
  match p with
  | DelayMin =>
      {| DELAY_MIN := v; DELAY_MAX := DELAY_MAX c;
         MAX_RETRIES := MAX_RETRIES c; cfg_rest := cfg_rest c |}
  | DelayMax =>
      {| DELAY_MIN := DELAY_MIN c; DELAY_MAX := v;
         MAX_RETRIES := MAX_RETRIES c; cfg_rest := cfg_rest c |}
  | MaxRetries =>
      {| DELAY_MIN := DELAY_MIN c; DELAY_MAX := DELAY_MAX c;
         MAX_RETRIES := v; cfg_rest := cfg_rest c |}
  end.

(** What the page relies on: the methods it calls on its collaborators and
    the rendering of its text widget.  [C] is the private state of the
    configuration object, [D] the state behind the database handler, [H] a
    cookie helper.  The configuration object and the database handler are
    two objects with separate state. *)
Class Collaborators (C D H : Type) : Type := {
  cfg_set_cookie : Py.str -> Config C -> outcome bool * Config C;
  cfg_clear_cookie : Config C -> outcome unit * Config C;
  cfg_validate_cookie : Py.str -> Config C -> outcome bool * Config C;
  db_get_valid_cookie : D -> outcome (option Py.str * bool) * D;
  db_save_cookie : Py.str -> D -> outcome unit * D;
  db_clear_cookies : D -> outcome unit * D;
  db_clear_database : D -> outcome unit * D;
  new_cookie_helper : Config C -> D -> outcome H;
  (** The text widget: [plain_text_of s] is what [toPlainText()] returns
      once [setText(s)] was called.  Qt decides whether [s] is rich text and
      normalises some characters, so this need not be [s]. *)
  plain_text_of : Py.str -> Py.str
}.

(** ** The page *)

(** Text of [cookie_status_label]. *)
Inductive status : Type :=
| StatusInitial     (* line 78: not set, before the first load *)
| StatusExpiring    (* line 378: cookie about to expire *)
| StatusValid       (* line 386: cookie valid *)
| StatusUnset.      (* line 394: no cookie set *)

Record label : Type := {
  label_text : status;
  label_color : string    (* the [color] of its style sheet *)
}.

Definition clamp (lo hi v : Z) : Z := Z.max lo (Z.min hi v).

(** [setRange] of the three spin boxes (lines 201, 222, 250). *)
Definition spin_range (p : param) : Z * Z :=
  match p with
  | DelayMin => (0, 100)
  | DelayMax => (0, 100)
  | MaxRetries => (0, 10)
  end%Z.

Definition in_range (p : param) (v : Z) : Z :=
  clamp (fst (spin_range p)) (snd (spin_range p)) v.

(** Whether a Python integer converts to a C [int]. *)
Definition fits_c_int (v : Z) : bool :=
  ((-2147483648 <=? v) && (v <=? 2147483647))%Z.

Definition config_fits {C} (c : Config C) : bool :=
  fits_c_int (DELAY_MIN c) && fits_c_int (DELAY_MAX c)
  && fits_c_int (MAX_RETRIES c).

Definition overflow_error : Py.str :=
  Py.of_string "argument 1 overflowed: value must be in the range -2147483648 to 2147483647".

Section View.

Context {C D H : Type} {K : Collaborators C D H}.

(** The attributes of the page that its slots read or write.
    [cookie_input] is the plain text of the [QTextEdit], that is, what
    [toPlainText()] returns. *)
Record SettingsPage : Type := {
  config : Config C;
  db_handler : D;
  cookie_helper : option H;
  cookie_status_label : label;
  cookie_input : Py.str;
  min_delay : Z;
  max_delay : Z;
  max_retries : Z
}.

Definition with_config (c : Config C) (w : SettingsPage) : SettingsPage :=
  {| config := c; db_handler := db_handler w; cookie_helper := cookie_helper w;
     cookie_status_label := cookie_status_label w;
     cookie_input := cookie_input w; min_delay := min_delay w;
     max_delay := max_delay w; max_retries := max_retries w |}.

Definition with_db (d : D) (w : SettingsPage) : SettingsPage :=
  {| config := config w; db_handler := d; cookie_helper := cookie_helper w;
     cookie_status_label := cookie_status_label w;
     cookie_input := cookie_input w; min_delay := min_delay w;
     max_delay := max_delay w; max_retries := max_retries w |}.

Definition with_helper (h : option H) (w : SettingsPage) : SettingsPage :=
  {| config := config w; db_handler := db_handler w; cookie_helper := h;
     cookie_status_label := cookie_status_label w;
     cookie_input := cookie_input w; min_delay := min_delay w;
     max_delay := max_delay w; max_retries := max_retries w |}.

Definition with_label (l : label) (w : SettingsPage) : SettingsPage :=
  {| config := config w; db_handler := db_handler w;
     cookie_helper := cookie_helper w; cookie_status_label := l;
     cookie_input := cookie_input w; min_delay := min_delay w;
     max_delay := max_delay w; max_retries := max_retries w |}.

Definition with_input (s : Py.str) (w : SettingsPage) : SettingsPage :=
  {| config := config w; db_handler := db_handler w;
     cookie_helper := cookie_helper w;
     cookie_status_label := cookie_status_label w;
     cookie_input := s; min_delay := min_delay w;
     max_delay := max_delay w; max_retries := max_retries w |}.

Definition spin_value (p : param) (w : SettingsPage) : Z :=
  match p with
  | DelayMin => min_delay w
  | DelayMax => max_delay w
  | MaxRetries => max_retries w
  end.

Definition with_spin (p : param) (v : Z) (w : SettingsPage) : SettingsPage :=
  {| config := config w; db_handler := db_handler w;
     cookie_helper := cookie_helper w;
     cookie_status_label := cookie_status_label w;
     cookie_input := cookie_input w;
     min_delay := match p with DelayMin => v | _ => min_delay w end;
     max_delay := match p with DelayMax => v | _ => max_delay w end;
     max_retries := match p with MaxRetries => v | _ => max_retries w end |}.

Local Open Scope slot_scope.

(** A method call on [self.config], recorded as [ev]. *)
Definition call_config {A} (ev : event)
    (op : Config C -> outcome A * Config C) : M SettingsPage A :=
  fun w => let (o, c) := op (config w) in Run o (with_config c w) [ev].

(** A method call on [self.db_handler], recorded as [ev]. *)
Definition call_db {A} (ev : event) (op : D -> outcome A * D)
    : M SettingsPage A :=
  fun w => let (o, d) := op (db_handler w) in Run o (with_db d w) [ev].

(** [self.config.<p> = v] *)
Definition assign (p : param) (v : Z) : M SettingsPage unit :=
  fun w => Run (Ret tt) (with_config (set_param p v (config w)) w)
               [CfgAssign p v].

(** [cookie_input.setText(s)]: afterwards the field's plain text is what
    the widget makes of [s]. *)
Definition setText (s : Py.str) : M SettingsPage unit :=
  modify (with_input (plain_text_of s)).

(** [cookie_status_label.setText] followed by [setStyleSheet]. *)
Definition set_status (s : status) (color : string) : M SettingsPage unit :=
  modify (with_label {| label_text := s; label_color := color |}).

(** [show_cookie_helper] (lines 343-351). *)
Definition show_cookie_helper : M SettingsPage unit :=
  try_except
    (fun w =>
       match new_cookie_helper (config w) (db_handler w) with
       | Ret h => Run (Ret tt) (with_helper (Some h) w) [HelperNew]
       | Raise e => Run (Raise e) w [HelperNew]
       end)
    (fun e => emit (MsgBox Critical (HelperStartFailed e))).

(** [load_settings] (lines 369-403). *)
Definition load_settings : M SettingsPage unit :=
  try_except
    (r <- call_db DbGetValidCookie db_get_valid_cookie ;;
     let (cookie, need_update) := r in
     match cookie with
     | Some text =>
         if Py.truthy text then
           setText text ;;
           if need_update then set_status StatusExpiring "#ff9900"
           else set_status StatusValid "#00cc00"
         else set_status StatusUnset "#ff0000"
     | None => set_status StatusUnset "#ff0000"
     end)
    (fun e => emit (MsgBox Critical (LoadFailed e))).

(** [on_cookie_received] (lines 353-367). *)
Definition on_cookie_received (cookie : Py.str) : M SettingsPage unit :=
  try_except
    (setText cookie ;;
     ok <- call_config (CfgSetCookie cookie) (cfg_set_cookie cookie) ;;
     if ok : bool then
       call_db (DbSaveCookie cookie) (db_save_cookie cookie) ;;
       load_settings ;;
       emit (MsgBox Information CookieObtained)
     else ret tt)
    (fun e => emit (MsgBox Critical (CookieProcessFailed e))).

(** [validate_cookie] (lines 405-420). *)
Definition validate_cookie : M SettingsPage unit :=
  text <- gets cookie_input ;;
  let cookie := Py.strip text in
  if negb (Py.truthy cookie) then emit (MsgBox Warning EnterCookie)
  else
    try_except
      (ok <- call_config (CfgValidateCookie cookie)
                         (cfg_validate_cookie cookie) ;;
       if ok : bool then emit (MsgBox Information FormatOk)
       else emit (MsgBox Warning FormatBad))
      (fun e => emit (MsgBox Critical (ValidateFailed e))).

(** [save_cookie] (lines 422-443). *)
Definition save_cookie : M SettingsPage unit :=
  text <- gets cookie_input ;;
  let cookie := Py.strip text in
  if negb (Py.truthy cookie) then emit (MsgBox Warning EnterCookie)
  else
    try_except
      (call_config CfgClearCookie cfg_clear_cookie ;;
       ok <- call_config (CfgSetCookie cookie) (cfg_set_cookie cookie) ;;
       if ok : bool then
         call_db (DbSaveCookie cookie) (db_save_cookie cookie) ;;
         load_settings ;;
         emit (MsgBox Information SaveOk)
       else emit (MsgBox Warning FormatBad))
      (fun e => emit (MsgBox Critical (SaveFailed e))).

(** [clear_cookie] (lines 445-462); [reply] is the button the user presses in
    the confirmation dialog. *)
Definition clear_cookie (reply : StandardButton) : M SettingsPage unit :=
  emit (Ask AskClearCookie reply) ;;
  match reply with
  | Yes =>
      try_except
        (modify (with_input []) ;;
         call_config CfgClearCookie cfg_clear_cookie ;;
         call_db DbClearCookies db_clear_cookies ;;
         load_settings ;;
         emit (MsgBox Information CookieCleared))
        (fun e => emit (MsgBox Critical (ClearFailed e)))
  | No => ret tt
  end.

(** [clear_database] (lines 464-479). *)
Definition clear_database (reply : StandardButton) : M SettingsPage unit :=
  emit (Ask AskClearDatabase reply) ;;
  match reply with
  | Yes =>
      try_except
        (call_db DbClearDatabase db_clear_database ;;
         emit (MsgBox Information DatabaseCleared))
        (fun e => emit (MsgBox Critical (DatabaseClearFailed e)))
  | No => ret tt
  end.

(** [backup_database] (lines 481-485). *)
Definition backup_database : M SettingsPage unit :=
  emit (MsgBox Information BackupInDevelopment).

(** [save_settings] (lines 497-506). *)
Definition save_settings : M SettingsPage unit :=
  try_except
    (v1 <- gets min_delay ;; assign DelayMin v1 ;;
     v2 <- gets max_delay ;; assign DelayMax v2 ;;
     v3 <- gets max_retries ;; assign MaxRetries v3)
    (fun e => emit (MsgBox Critical (SettingsSaveFailed e))).

(** A spin box is given the value [v] after [valueChanged] was connected to
    [save_settings] (lines 337-339): the box keeps [v] bounded to its range
    and emits [valueChanged] when its value changes. *)
Definition spin_changed (p : param) (v : Z) : M SettingsPage unit :=
  old <- gets (spin_value p) ;;
  let v' := in_range p v in
  if (v' =? old)%Z then ret tt
  else modify (with_spin p v') ;; save_settings.

(** [init_ui] (lines 63-341) when the three [setValue] calls go through: the
    widgets right after construction; the spin boxes take the
    configuration's values, bounded to their ranges, before any signal is
    connected.  [SettingsPage_init] below decides whether they go through. *)
Definition init_ui (c : Config C) (d : D) : SettingsPage :=
  {| config := c; db_handler := d; cookie_helper := None;
     cookie_status_label :=
       {| label_text := StatusInitial; label_color := "#ff9900" |};
     cookie_input := [];
     min_delay := in_range DelayMin (DELAY_MIN c);
     max_delay := in_range DelayMax (DELAY_MAX c);
     max_retries := in_range MaxRetries (MAX_RETRIES c) |}.

(** The rest of [SettingsPage.__init__] (lines 60-61) once the widgets
    exist. *)
Definition new_page (c : Config C) (d : D) : run SettingsPage unit :=
  load_settings (init_ui c d).

(** [SettingsPage(config, db_handler)] (lines 50-61).  [QSpinBox.setValue]
    takes a C [int]: given a Python integer outside its range it raises
    [OverflowError] (lines 202, 223, 251), outside any [try], and no page
    comes to exist. *)
Definition SettingsPage_init (c : Config C) (d : D)
    : outcome (run SettingsPage unit) :=
  if config_fits c then Ret (new_page c d) else Raise overflow_error.

(** What reaches the page: button clicks with the signal wiring of
    [init_ui] (lines 137-143, 333-339), the helper's [cookie_ready] signal
    (line 349) and typing in the cookie field. *)
Inductive action : Type :=
| ClickGetCookie
| ClickValidate
| ClickSave
| ClickClear (reply : StandardButton)
| ClickClearDatabase (reply : StandardButton)
| ClickBackup
| SpinChange (p : param) (v : Z)
| CookieReady (cookie : Py.str)
| TypeCookie (text : Py.str).   (* the field's plain text becomes [text] *)

Definition dispatch (a : action) : M SettingsPage unit :=
  match a with
  | ClickGetCookie => show_cookie_helper
  | ClickValidate => validate_cookie
  | ClickSave => save_cookie
  | ClickClear reply => clear_cookie reply
  | ClickClearDatabase reply => clear_database reply
  | ClickBackup => backup_database
  | SpinChange p v => spin_changed p v
  | CookieReady cookie => on_cookie_received cookie
  | TypeCookie text => modify (with_input text)
  end.

(** Running a sequence of actions, logs concatenated. *)
Fixpoint dispatch_all (l : list action) : M SettingsPage unit :=
  match l with
  | [] => ret tt
  | a :: l' => dispatch a ;; dispatch_all l'
  end.

End View.

Arguments SettingsPage C D H : clear implicits.

(** Whether the result of [get_valid_cookie] carries a cookie that
    [load_settings] would show ([if cookie:], line 375). *)
Definition reports_cookie {D}
    (x : outcome (option Py.str * bool) * D) : bool :=
  match fst x with
  | Ret (o, _) => Py.truthy_opt o
  | Raise _ => false
  end.

(** ** Stand-ins for the collaborators

    The configuration class and the database handler are not part of the
    sources at hand.  The stand-ins below are used to run the page on concrete
    inputs; the theorems about the page hold for every implementation of
    [Collaborators]. *)

(** The three fields a cookie must contain, as the input's placeholder text
    lists them (lines 91-96). *)
Definition required_fields : list Py.str :=
  map Py.of_string ["SESSDATA"; "bili_jct"; "DedeUserID"]%string.

(** Names of the [name=value] items of a [;]-separated cookie string. *)
Definition cookie_keys (s : Py.str) : list Py.str :=
  map (fun item => Py.strip (Py.take_until 61 item)) (Py.split_on 59 s).

(** Modelled from the spec: the structural validation of the Config
    collaborator (its code is missing), "presence of three required
    sub-fields". *)
Definition has_required_fields (s : Py.str) : bool :=
  forallb (fun name => existsb (Py.eqb name) (cookie_keys s)) required_fields.

Definition missing_required_field (s : Py.str) : bool :=
  negb (has_required_fields s).

(** Stand-in for the text widget on text that Qt does not take for rich
    text: a no-break space comes back as a space and CR LF as LF. *)
Fixpoint ref_plain_text (s : Py.str) : Py.str :=
  match s with
  | [] => []
  | c :: s' =>
      if (c =? 160)%N then 32%N :: ref_plain_text s'
      else if (c =? 13)%N then
        match s' with
        | 10%N :: _ => ref_plain_text s'
        | _ => c :: ref_plain_text s'
        end
      else c :: ref_plain_text s'
  end.

(** Private state of the stand-in configuration: the active cookie. *)
Record RefCfg : Type := { active_cookie : option Py.str }.

Definition ref_with_cookie (o : option Py.str) (c : Config RefCfg)
    : Config RefCfg :=
  {| DELAY_MIN := DELAY_MIN c; DELAY_MAX := DELAY_MAX c;
     MAX_RETRIES := MAX_RETRIES c; cfg_rest := {| active_cookie := o |} |}.

(** State of the stand-in database: the saved cookie with its near-expiry
    flag, the number of crawled comment rows, and whether the database file
    is locked (every call then raises). *)
Record RefDb : Type := {
  saved_cookie : option (Py.str * bool);
  comment_rows : nat;
  locked : bool
}.

Definition db_locked_error : Py.str := Py.of_string "database is locked".

Definition ref_db_op {A} (f : RefDb -> A * RefDb) (d : RefDb)
    : outcome A * RefDb :=
  if locked d then (Raise db_locked_error, d)
  else let (a, d') := f d in (Ret a, d').

(** Modelled from the spec: the Config and Storage collaborators (their code
    is missing).  [set_cookie] validates the structure and keeps the cookie
    on success; [clear_cookie] forgets it; the database keeps one cookie. *)
#[export] Instance RefCollaborators : Collaborators RefCfg RefDb unit := {
  cfg_set_cookie s c :=
    if has_required_fields s then (Ret true, ref_with_cookie (Some s) c)
    else (Ret false, c);
  cfg_clear_cookie c := (Ret tt, ref_with_cookie None c);
  cfg_validate_cookie s c := (Ret (has_required_fields s), c);
  db_get_valid_cookie :=
    ref_db_op (fun d =>
      (match saved_cookie d with
       | Some (s, soon) => (Some s, soon)
       | None => (None, false)
       end, d));
  db_save_cookie s :=
    ref_db_op (fun d =>
      (tt, {| saved_cookie := Some (s, false);
              comment_rows := comment_rows d; locked := locked d |}));
  db_clear_cookies :=
    ref_db_op (fun d =>
      (tt, {| saved_cookie := None;
              comment_rows := comment_rows d; locked := locked d |}));
  db_clear_database :=
    ref_db_op (fun d =>
      (tt, {| saved_cookie := saved_cookie d;
              comment_rows := 0; locked := locked d |}));
  new_cookie_helper _ _ := Ret tt;
  plain_text_of := ref_plain_text
}.

(** Sample data. *)
Definition good_cookie : Py.str :=
  Py.of_string "SESSDATA=abc; bili_jct=def; DedeUserID=42".
Definition old_cookie : Py.str :=
  Py.of_string "SESSDATA=old; bili_jct=old; DedeUserID=7".
Definition bad_cookie : Py.str := Py.of_string "SESSDATA=abc".

Definition ref_config (o : option Py.str) : Config RefCfg :=
  {| DELAY_MIN := 1; DELAY_MAX := 3; MAX_RETRIES := 3;
     cfg_rest := {| active_cookie := o |} |}.

Definition ref_db (o : option (Py.str * bool)) (lock : bool) : RefDb :=
  {| saved_cookie := o; comment_rows := 120; locked := lock |}.

(** The page over the stand-ins, after construction, with [text] typed into
    the cookie field. *)
Definition ref_page (c : option Py.str) (d : RefDb) (text : Py.str)
    : SettingsPage RefCfg RefDb unit :=
  with_input text (post (new_page (ref_config c) d)).

(** A page that holds [old_cookie] in the configuration and in the database
    and has [text] in the cookie field. *)
Definition page_with_old (text : Py.str) : SettingsPage RefCfg RefDb unit :=
  ref_page (Some old_cookie) (ref_db (Some (old_cookie, false)) false) text.

(** ** Closing the page *)

Section Closing.

Context {C D H : Type}.

(** [cookie_helper.cleanup()]: returns or raises. *)
Variable cleanup : H -> outcome unit.

(** What [closeEvent] leaves behind: how it ended, the page, the helpers it
    called [cleanup()] on, and whether [event.accept()] was reached. *)
Record closing : Type := {
  close_res : outcome unit;
  close_page : SettingsPage C D H;
  cleaned : list H;
  accepted : bool
}.

(** [closeEvent] (lines 487-495); a helper object counts as true.  There is
    no [try] here: an exception of [cleanup()] leaves the method at once. *)
Definition closeEvent (w : SettingsPage C D H) : closing :=
  match cookie_helper w with
  | Some h =>
      match cleanup h with
      | Ret _ =>
          {| close_res := Ret tt; close_page := with_helper None w;
             cleaned := [h]; accepted := true |}
      | Raise e =>
          {| close_res := Raise e; close_page := w;
             cleaned := [h]; accepted := false |}
      end
  | None =>
      {| close_res := Ret tt; close_page := w;
         cleaned := []; accepted := true |}
  end.

End Closing.

(** ** Properties of pages *)

(** [v] lies in the range of the spin box of [p]. *)
Definition value_in_range (p : param) (v : Z) : Prop :=
  (fst (spin_range p) <= v <= snd (spin_range p))%Z.

Definition spins_in_range {C D H} (w : SettingsPage C D H) : Prop :=
  forall p, value_in_range p (spin_value p w).

(** The colour of the status label goes with its text (lines 78-84 and
    378-400). *)
Definition label_consistent (l : label) : Prop :=
  label_color l
  = match label_text l with
    | StatusInitial => "#ff9900"
    | StatusExpiring => "#ff9900"
    | StatusValid => "#00cc00"
    | StatusUnset => "#ff0000"
    end%string.

(** The dialog that ends [clear_database] on Yes. *)
Definition clear_database_dialog (o : outcome unit) : event :=
  match o with
  | Ret _ => MsgBox Information DatabaseCleared
  | Raise e => MsgBox Critical (DatabaseClearFailed e)
  end.

(** Stand-ins whose methods raise on demand: a configuration and a database
    with one switch per method.  Helpers are numbered. *)
Record FlakyCfg : Type := {
  clear_fails : bool;
  set_fails : bool;
  validate_fails : bool;
  helper_fails : bool
}.

Record FlakyDb : Type := {
  get_fails : bool;
  save_fails : bool;
  wipe_fails : bool;
  held_cookie : option (Py.str * bool)
}.

Definition cfg_error : Py.str := Py.of_string "config file is read-only".
Definition db_error : Py.str := Py.of_string "disk I/O error".

Definition flaky_hold (o : option (Py.str * bool)) (d : FlakyDb) : FlakyDb :=
  {| get_fails := get_fails d; save_fails := save_fails d;
     wipe_fails := wipe_fails d; held_cookie := o |}.

#[export] Instance FlakyCollaborators
    : Collaborators FlakyCfg FlakyDb nat := {
  cfg_set_cookie s c :=
    if set_fails (cfg_rest c) then (Raise cfg_error, c)
    else (Ret (has_required_fields s), c);
  cfg_clear_cookie c :=
    if clear_fails (cfg_rest c) then (Raise cfg_error, c) else (Ret tt, c);
  cfg_validate_cookie s c :=
    if validate_fails (cfg_rest c) then (Raise cfg_error, c)
    else (Ret (has_required_fields s), c);
  db_get_valid_cookie d :=
    if get_fails d then (Raise db_error, d)
    else (Ret match held_cookie d with
              | Some (s, soon) => (Some s, soon)
              | None => (None, false)
              end, d);
  db_save_cookie s d :=
    if save_fails d then (Raise db_error, d)
    else (Ret tt, flaky_hold (Some (s, false)) d);
  db_clear_cookies d :=
    if wipe_fails d then (Raise db_error, d)
    else (Ret tt, flaky_hold None d);
  db_clear_database d :=
    if wipe_fails d then (Raise db_error, d) else (Ret tt, d);
  new_cookie_helper c _ :=
    if helper_fails (cfg_rest c) then Raise cfg_error else Ret 1%nat;
  plain_text_of := ref_plain_text
}.

Definition flaky_config (fc fs fv fh : bool) : Config FlakyCfg :=
  {| DELAY_MIN := 1; DELAY_MAX := 3; MAX_RETRIES := 3;
     cfg_rest := {| clear_fails := fc; set_fails := fs;
                    validate_fails := fv; helper_fails := fh |} |}.

Definition flaky_db (fg fs fw : bool) : FlakyDb :=
  {| get_fails := fg; save_fails := fs; wipe_fails := fw;
     held_cookie := Some (old_cookie, false) |}.

(** A page over the flaky stand-ins with [text] in the cookie field. *)
Definition flaky_page (c : Config FlakyCfg) (d : FlakyDb) (text : Py.str)
    : SettingsPage FlakyCfg FlakyDb nat :=
  {| config := c; db_handler := d; cookie_helper := Some 0%nat;
     cookie_status_label :=
       {| label_text := StatusValid; label_color := "#00cc00" |};
     cookie_input := text;
     min_delay := 1; max_delay := 3; max_retries := 3 |}.

(** A page over the reference stand-ins whose database got locked after the
    page was built. *)
Definition locked_page (text : Py.str) : SettingsPage RefCfg RefDb unit :=
  with_db (ref_db (Some (old_cookie, false)) true) (page_with_old text).

(** ** Proof support *)

Ltac unfold_slots :=
  unfold dispatch, save_cookie, validate_cookie, on_cookie_received,
    clear_cookie, clear_database, load_settings, save_settings, spin_changed,
    show_cookie_helper, backup_database, call_config, call_db, assign,
    set_status, setText, try_except, bind, emit, gets, modify, ret in *.

(** Case analysis on every collaborator result (or on a test of the slot)
    that the goal still branches on; known results are rewritten. *)
Ltac slot_cases :=
  repeat (cbn in *;
          match goal with
          | E : ?x = _ |- context [match ?x with _ => _ end] => rewrite E
          | |- context [match ?x with _ => _ end] =>
              lazymatch x with
              | context [match _ with _ => _ end] => fail
              | _ => destruct x eqn:?
              end
          end);
  cbn in *.

Arguments Py.strip s : simpl never.
Arguments in_range p v : simpl never.

Ltac kill_units :=
  repeat match goal with u : unit |- _ => destruct u end.

Lemma strip_truthy (s : Py.str) :
  Py.truthy (Py.strip s) = true <-> Py.strip s <> [].
Proof.
  destruct (Py.strip s); cbn; split; intro E; congruence.
Qed.

Lemma lstrip_all_space (s : Py.str) :
  forallb Py.isspace s = true -> Py.lstrip s = [].
Proof.
  induction s as [|c s IH]; cbn; [reflexivity|].
  intro E. apply andb_true_iff in E as [Ec Es]. rewrite Ec. auto.
Qed.

(** A cookie field holding only white space counts as empty. *)
Lemma strip_all_space (s : Py.str) :
  forallb Py.isspace s = true -> Py.strip s = [].
Proof.
  intro E. unfold Py.strip. rewrite (lstrip_all_space s E). reflexivity.
Qed.

Section PageFacts.

Context {C D H : Type} {K : Collaborators C D H}.

Implicit Types (w : SettingsPage C D H) (cookie text : Py.str).

(** *** [load_settings] *)

Lemma load_settings_returns w : res (load_settings w) = Ret tt.
Proof. unfold_slots. slot_cases; reflexivity. Qed.

Lemma load_settings_log w :
  log (load_settings w) = [DbGetValidCookie] \/
  exists e, log (load_settings w)
            = [DbGetValidCookie; MsgBox Critical (LoadFailed e)].
Proof. unfold_slots. slot_cases; eauto. Qed.

Lemma load_settings_config w : config (post (load_settings w)) = config w.
Proof. unfold_slots. slot_cases; reflexivity. Qed.

Lemma load_settings_db w :
  db_handler (post (load_settings w))
  = snd (db_get_valid_cookie (db_handler w)).
Proof. unfold_slots. slot_cases; reflexivity. Qed.

Lemma load_settings_spins w p :
  spin_value p (post (load_settings w)) = spin_value p w.
Proof. unfold_slots. slot_cases; destruct p; reflexivity. Qed.

Lemma load_settings_keeps_input w :
  reports_cookie (db_get_valid_cookie (db_handler w)) = false ->
  cookie_input (post (load_settings w)) = cookie_input w.
Proof.
  unfold reports_cookie. unfold_slots.
  slot_cases; intros E; cbn in E; try reflexivity; congruence.
Qed.

Lemma load_settings_calls p w :
  p DbGetValidCookie = false ->
  (forall l m, p (MsgBox l m) = false) ->
  calls p (log (load_settings w)) = [].
Proof.
  intros E1 E2.
  destruct (load_settings_log w) as [E | [e E]]; rewrite E; cbn;
    rewrite ?E1, ?E2; reflexivity.
Qed.

(** C5. [load_settings] maps what [get_valid_cookie] returns three ways: no
    cookie ([None]) gives the "unset" status, a non-empty cookie text with the
    near-expiry flag set gives "expiring", a non-empty text with the flag
    clear gives "valid"; whenever a cookie exists the input field is set to
    its text with [setText], whatever the field held before. *)
Theorem load_settings_three_way w o soon d' :
  db_get_valid_cookie (db_handler w) = (Ret (o, soon), d') ->
  let w' := post (load_settings w) in
  db_handler w' = d' /\
  (o = None ->
     label_text (cookie_status_label w') = StatusUnset) /\
  (forall text, o = Some text -> text <> [] -> soon = true ->
     label_text (cookie_status_label w') = StatusExpiring /\
     cookie_input w' = plain_text_of text) /\
  (forall text, o = Some text -> text <> [] -> soon = false ->
     label_text (cookie_status_label w') = StatusValid /\
     cookie_input w' = plain_text_of text).
Proof.
  intros E. unfold_slots. cbn. rewrite E. cbn.
  split; [|split; [|split]].
  - destruct o as [[|c t]|]; [| destruct soon |]; reflexivity.
  - intros ->. reflexivity.
  - intros text -> Hne ->. destruct text; [congruence|]. cbn. auto.
  - intros text -> Hne ->. destruct text; [congruence|]. cbn. auto.
Qed.

(** *** Saving and validating the cookie *)

(** Empty input: both [validate_cookie] and [save_cookie] warn and return
    before touching anything. *)
Lemma empty_input_run w a :
  Py.strip (cookie_input w) = [] ->
  a = ClickValidate \/ a = ClickSave ->
  dispatch a w = Run (Ret tt) w [MsgBox Warning EnterCookie].
Proof.
  intros E [-> | ->]; unfold_slots; cbn; rewrite E; reflexivity.
Qed.

(** The run of [validate_cookie] on non-empty input when the configuration
    answers [ok]. *)
Lemma validate_cookie_run w ok c' :
  Py.strip (cookie_input w) <> [] ->
  cfg_validate_cookie (Py.strip (cookie_input w)) (config w) = (Ret ok, c') ->
  validate_cookie w
  = Run (Ret tt) (with_config c' w)
        [CfgValidateCookie (Py.strip (cookie_input w));
         if ok then MsgBox Information FormatOk
         else MsgBox Warning FormatBad].
Proof.
  intros Hne E. apply strip_truthy in Hne.
  unfold_slots. cbn. rewrite Hne. cbn. rewrite E.
  destruct ok; reflexivity.
Qed.

(** The run of [save_cookie] on non-empty input that [set_cookie] rejects. *)
Lemma rejected_save_run w c1 c2 :
  Py.strip (cookie_input w) <> [] ->
  cfg_clear_cookie (config w) = (Ret tt, c1) ->
  cfg_set_cookie (Py.strip (cookie_input w)) c1 = (Ret false, c2) ->
  save_cookie w
  = Run (Ret tt) (with_config c2 w)
        [CfgClearCookie; CfgSetCookie (Py.strip (cookie_input w));
         MsgBox Warning FormatBad].
Proof.
  intros Hne E1 E2. apply strip_truthy in Hne.
  unfold_slots. cbn. rewrite Hne. cbn. rewrite E1. cbn. rewrite E2.
  reflexivity.
Qed.

(** C1 (as amended). [save_cookie] on non-empty text first calls
    [config.clear_cookie()], then [config.set_cookie(text)]; when [set_cookie]
    returns false the user is warned, nothing is saved to the database, and
    the database is exactly as before (a cookie saved there earlier is still
    there): what has been cleared is the configuration's in-memory cookie. *)
Theorem save_cookie_rejected w c1 c2 :
  Py.strip (cookie_input w) <> [] ->
  cfg_clear_cookie (config w) = (Ret tt, c1) ->
  cfg_set_cookie (Py.strip (cookie_input w)) c1 = (Ret false, c2) ->
  let r := save_cookie w in
  log r = [CfgClearCookie; CfgSetCookie (Py.strip (cookie_input w));
           MsgBox Warning FormatBad] /\
  calls is_db_call (log r) = [] /\
  db_handler (post r) = db_handler w /\
  config (post r) = c2 /\
  cookie_input (post r) = cookie_input w /\
  cookie_status_label (post r) = cookie_status_label w.
Proof.
  intros Hne E1 E2. cbv zeta.
  rewrite (rejected_save_run w Hne E1 E2). cbn. auto 10.
Qed.

(** C2 (as amended). In [validate_cookie] and [save_cookie] every validation
    failure shows a warning and never touches the database.  With empty input
    the slot returns before any call on the configuration or the database.
    With a malformed cookie, [validate_cookie] has only asked the
    configuration to validate, while [save_cookie] has already called
    [config.clear_cookie()] and [config.set_cookie(text)], so the
    configuration has been changed before the warning. *)
Theorem validation_failure_effects w :
  let text := Py.strip (cookie_input w) in
  (text = [] ->
   forall a, a = ClickValidate \/ a = ClickSave ->
     dispatch a w = Run (Ret tt) w [MsgBox Warning EnterCookie]) /\
  (forall c', text <> [] ->
     cfg_validate_cookie text (config w) = (Ret false, c') ->
     dispatch ClickValidate w
     = Run (Ret tt) (with_config c' w)
           [CfgValidateCookie text; MsgBox Warning FormatBad]) /\
  (forall c1 c2, text <> [] ->
     cfg_clear_cookie (config w) = (Ret tt, c1) ->
     cfg_set_cookie text c1 = (Ret false, c2) ->
     dispatch ClickSave w
     = Run (Ret tt) (with_config c2 w)
           [CfgClearCookie; CfgSetCookie text; MsgBox Warning FormatBad]).
Proof.
  cbv zeta. split; [|split].
  - intros E a Ha. exact (empty_input_run w E Ha).
  - intros c' Hne E. exact (validate_cookie_run w Hne E).
  - intros c1 c2 Hne E1 E2. exact (rejected_save_run w Hne E1 E2).
Qed.

(** C3 (as amended). For a non-empty cookie text that the configuration
    accepts, and with [config.clear_cookie()] returning normally,
    [save_cookie] makes exactly one [config.set_cookie] call and exactly one
    [db_handler.save_cookie] call, with that text, the former before the
    latter; the configuration is left as [set_cookie] left it and the
    database as [save_cookie] and the reload left it.  When
    [config.clear_cookie()] raises, neither call is made and the error is
    shown. *)
Theorem save_cookie_set_then_save w :
  Py.strip (cookie_input w) <> [] ->
  let text := Py.strip (cookie_input w) in
  let r := save_cookie w in
  let saved := db_save_cookie text (db_handler w) in
  (forall c1 c2,
     cfg_clear_cookie (config w) = (Ret tt, c1) ->
     cfg_set_cookie text c1 = (Ret true, c2) ->
     calls is_set_or_save (log r) = [CfgSetCookie text; DbSaveCookie text] /\
     calls is_set_cookie (log r) = [CfgSetCookie text] /\
     calls is_db_save (log r) = [DbSaveCookie text] /\
     (exists tl, log r = CfgClearCookie :: CfgSetCookie text
                           :: DbSaveCookie text :: tl) /\
     config (post r) = c2 /\
     db_handler (post r)
     = match fst saved with
       | Ret _ => snd (db_get_valid_cookie (snd saved))
       | Raise _ => snd saved
       end) /\
  (forall e c1,
     cfg_clear_cookie (config w) = (Raise e, c1) ->
     calls is_set_or_save (log r) = [] /\
     log r = [CfgClearCookie; MsgBox Critical (SaveFailed e)] /\
     config (post r) = c1 /\
     db_handler (post r) = db_handler w).
Proof.
  intros Hne. apply strip_truthy in Hne. cbv zeta. split.
  - intros c1 c2 E1 E2.
    unfold_slots. cbn. rewrite Hne. cbn. rewrite E1. cbn. rewrite E2.
    slot_cases; repeat split; eauto.
  - intros e c1 E1.
    unfold_slots. cbn. rewrite Hne. cbn. rewrite E1. cbn. auto.
Qed.

(** C6. [validate_cookie] warns without consulting the configuration when the
    (stripped) input is empty; otherwise it calls [config.validate_cookie]
    once and shows its verdict; it never calls the database; and, the
    configuration rejecting every cookie that misses a required field, each
    such cookie gets a warning. *)
Theorem validate_cookie_effects w :
  (forall s c, missing_required_field s = true ->
               fst (cfg_validate_cookie s c) = Ret false) ->
  let text := Py.strip (cookie_input w) in
  let r := validate_cookie w in
  (text = [] -> r = Run (Ret tt) w [MsgBox Warning EnterCookie]) /\
  (text <> [] -> calls is_cfg_call (log r) = [CfgValidateCookie text]) /\
  (forall ok c', text <> [] ->
     cfg_validate_cookie text (config w) = (Ret ok, c') ->
     log r = [CfgValidateCookie text;
              if ok then MsgBox Information FormatOk
              else MsgBox Warning FormatBad]) /\
  calls is_db_call (log r) = [] /\
  db_handler (post r) = db_handler w /\
  (missing_required_field text = true ->
     exists m, calls is_msgbox (log r) = [MsgBox Warning m]).
Proof.
  intros Hcontract. cbv zeta.
  split; [|split; [|split; [|split; [|split]]]].
  - intros E. exact (empty_input_run w E (or_introl eq_refl)).
  - intros Hne. apply strip_truthy in Hne.
    unfold_slots. cbn. rewrite Hne. slot_cases; reflexivity.
  - intros ok c' Hne E. rewrite (validate_cookie_run w Hne E). reflexivity.
  - unfold_slots. slot_cases; reflexivity.
  - unfold_slots. slot_cases; reflexivity.
  - intros Hmiss.
    destruct (Py.strip (cookie_input w)) as [|n l] eqn:E.
    + rewrite (empty_input_run w E (or_introl eq_refl) : validate_cookie w = _).
      cbn. eauto.
    + assert (Hne : Py.strip (cookie_input w) <> []) by (rewrite E; discriminate).
      specialize (Hcontract _ (config w) Hmiss).
      destruct (cfg_validate_cookie (n :: l) (config w)) as [o c'] eqn:Ev.
      cbn in Hcontract. subst o. rewrite <- E in Ev.
      rewrite (validate_cookie_run w Hne Ev). cbn. eauto.
Qed.

(** *** The helper's callback *)


(** C10. When [config.set_cookie] returns false for the received string,
    [on_cookie_received] does not call [db_handler.save_cookie], does not
    reload the status, shows no dialog at all, and leaves in the input field
    the rejected text it put there with [setText]. *)
Theorem on_cookie_received_rejected w cookie c' :
  cfg_set_cookie cookie (config w) = (Ret false, c') ->
  let r := on_cookie_received cookie w in
  log r = [CfgSetCookie cookie] /\
  calls is_db_save (log r) = [] /\
  calls is_db_get (log r) = [] /\
  calls is_msgbox (log r) = [] /\
  cookie_status_label (post r) = cookie_status_label w /\
  db_handler (post r) = db_handler w /\
  config (post r) = c' /\
  cookie_input (post r) = plain_text_of cookie.
Proof.
  intros E. cbv zeta. unfold_slots. cbn. rewrite E. cbn. auto 10.
Qed.

(** *** Clearing *)

(** C7 (as amended). Unless the user answers Yes, [clear_cookie] changes
    nothing (configuration, database and input field stay as they were).  On
    Yes the input field is emptied first.  If [config.clear_cookie()] then
    returns normally, there is exactly one [db_handler.clear_cookies] call,
    the configuration's cookie has been cleared, and the input field ends
    empty when the reload that follows finds no cookie in the database.  If
    [config.clear_cookie()] raises, [db_handler.clear_cookies] is not called
    and the error is shown. *)
Theorem clear_cookie_effects w :
  (forall reply, reply <> Yes ->
     clear_cookie reply w = Run (Ret tt) w [Ask AskClearCookie reply]) /\
  (forall c1,
     cfg_clear_cookie (config w) = (Ret tt, c1) ->
     let r := clear_cookie Yes w in
     let cleared := db_clear_cookies (db_handler w) in
     calls is_db_clear_cookies (log r) = [DbClearCookies] /\
     calls is_cfg_clear (log r) = [CfgClearCookie] /\
     config (post r) = c1 /\
     db_handler (post r)
     = match fst cleared with
       | Ret _ => snd (db_get_valid_cookie (snd cleared))
       | Raise _ => snd cleared
       end /\
     ((fst cleared = Ret tt ->
       reports_cookie (db_get_valid_cookie (snd cleared)) = false) ->
      cookie_input (post r) = [])) /\
  (forall e c1,
     cfg_clear_cookie (config w) = (Raise e, c1) ->
     let r := clear_cookie Yes w in
     calls is_db_clear_cookies (log r) = [] /\
     log r = [Ask AskClearCookie Yes; CfgClearCookie;
              MsgBox Critical (ClearFailed e)] /\
     cookie_input (post r) = [] /\
     config (post r) = c1 /\
     db_handler (post r) = db_handler w).
Proof.
  split; [|split].
  - intros [] Hr; [congruence|]. reflexivity.
  - intros c1 E1. cbv zeta. unfold reports_cookie.
    unfold_slots. cbn. rewrite E1.
    slot_cases; kill_units; repeat split; try reflexivity;
      intros Hdb; specialize (Hdb eq_refl); cbn in Hdb; congruence.
  - intros e c1 E1. cbv zeta. unfold_slots. cbn. rewrite E1. cbn. auto 10.
Qed.

(** C8. Unless the user answers Yes, [clear_database] leaves everything as it
    was; on Yes it calls [db_handler.clear_database()] exactly once, and
    makes no other call on the database or the configuration. *)
Theorem clear_database_effects w :
  (forall reply, reply <> Yes ->
     clear_database reply w = Run (Ret tt) w [Ask AskClearDatabase reply]) /\
  (let r := clear_database Yes w in
   calls is_db_call (log r) = [DbClearDatabase] /\
   calls is_cfg_call (log r) = [] /\
   db_handler (post r) = snd (db_clear_database (db_handler w)) /\
   config (post r) = config w).
Proof.
  split.
  - intros [] Hr; [congruence|]. reflexivity.
  - cbv zeta. unfold_slots. slot_cases; repeat split.
Qed.

(** *** Crawler parameters *)

Lemma save_settings_run w :
  save_settings w
  = Run (Ret tt)
        (with_config
           {| DELAY_MIN := min_delay w; DELAY_MAX := max_delay w;
              MAX_RETRIES := max_retries w;
              cfg_rest := cfg_rest (config w) |} w)
        [CfgAssign DelayMin (min_delay w); CfgAssign DelayMax (max_delay w);
         CfgAssign MaxRetries (max_retries w)].
Proof. reflexivity. Qed.

(** The assignments to the configuration that a slot makes are either none
    or the whole batch of three, with the values the spin boxes then hold. *)
Lemma assignments_none_or_batch (a : action) w :
  let r := dispatch a w in
  calls is_assign (log r) = [] \/
  calls is_assign (log r)
  = [CfgAssign DelayMin (min_delay (post r));
     CfgAssign DelayMax (max_delay (post r));
     CfgAssign MaxRetries (max_retries (post r))].
Proof.
  cbv zeta. destruct a as [| | |reply|reply| |p v|cookie|text];
    try destruct reply; unfold_slots; slot_cases; auto;
    destruct p; auto.
Qed.

(** C9. Whenever one of the three spin boxes changes its value,
    [save_settings] assigns all three current values to the configuration,
    in one batch; no slot of the page assigns fewer than the three. *)
Theorem spin_change_writes_batch w p v :
  in_range p v <> spin_value p w ->
  let r := dispatch (SpinChange p v) w in
  let w' := post r in
  spin_value p w' = in_range p v /\
  (forall q, q <> p -> spin_value q w' = spin_value q w) /\
  log r = [CfgAssign DelayMin (min_delay w');
           CfgAssign DelayMax (max_delay w');
           CfgAssign MaxRetries (max_retries w')] /\
  DELAY_MIN (config w') = min_delay w' /\
  DELAY_MAX (config w') = max_delay w' /\
  MAX_RETRIES (config w') = max_retries w' /\
  cfg_rest (config w') = cfg_rest (config w) /\
  (forall (a : action) w0,
     let r0 := dispatch a w0 in
     calls is_assign (log r0) = [] \/
     calls is_assign (log r0)
     = [CfgAssign DelayMin (min_delay (post r0));
        CfgAssign DelayMax (max_delay (post r0));
        CfgAssign MaxRetries (max_retries (post r0))]).
Proof.
  intros Hch. apply Z.eqb_neq in Hch. cbv zeta.
  assert (E : dispatch (SpinChange p v) w
              = save_settings (with_spin p (in_range p v) w)).
  { unfold dispatch, spin_changed, bind, gets, modify.
    rewrite Hch. rewrite save_settings_run. reflexivity. }
  rewrite E, save_settings_run. clear E. cbn [post log].
  repeat split; try (destruct p; reflexivity).
  - intros q Hq. destruct p, q; congruence || reflexivity.
  - intros a w0. exact (assignments_none_or_batch a w0).
Qed.

End PageFacts.

(** ** The page over the stand-in collaborators *)

(** The stand-in configuration rejects every cookie that misses a required
    field. *)
Lemma ref_validate_rejects_missing (s : Py.str) (c : Config RefCfg) :
  missing_required_field s = true ->
  fst (cfg_validate_cookie s c) = Ret false.
Proof.
  unfold missing_required_field. intros E.
  change (Ret (has_required_fields s) = Ret false).
  apply negb_true_iff in E. rewrite E. reflexivity.
Defined.

(** The scenario of three separate edits (5, 10, then 4 retries) on a page
    that starts from 1, 3 and 3: the configuration ends with the three values
    and was assigned three batches. *)
Example three_edits_scenario :
  let r := dispatch_all
             [SpinChange DelayMin 5; SpinChange DelayMax 10;
              SpinChange MaxRetries 4] (page_with_old []) in
  (DELAY_MIN (config (post r)), DELAY_MAX (config (post r)),
   MAX_RETRIES (config (post r))) = (5, 10, 4)%Z /\
  List.length (calls is_assign (log r)) = 9%nat.
Proof. vm_compute. split; reflexivity. Qed.

(** A spin box given the value it already holds emits nothing. *)
Example unchanged_value_writes_nothing :
  log (dispatch (SpinChange MaxRetries 3) (page_with_old [])) = [].
Proof. reflexivity. Qed.

(** White space alone in the cookie field is treated as no input. *)
Example blank_input_is_empty :
  save_cookie (page_with_old (Py.of_string "   "))
  = Run (Ret tt) (page_with_old (Py.of_string "   "))
        [MsgBox Warning EnterCookie].
Proof. reflexivity. Qed.

(** C1, as stated, fails: after a rejected save the cookie that was saved in
    the database is still there. *)
Lemma rejected_save_keeps_database_cookie :
  let w := page_with_old bad_cookie in
  let r := save_cookie w in
  ~ (Py.strip (cookie_input w) <> [] ->
     fst (cfg_set_cookie (Py.strip (cookie_input w))
                         (snd (cfg_clear_cookie (config w)))) = Ret false ->
     In (MsgBox Warning FormatBad) (log r) /\
     calls is_db_save (log r) = [] /\
     reports_cookie (db_get_valid_cookie (db_handler (post r))) = false).
Proof.
  cbv zeta. intros Hc.
  assert (H1 : Py.strip (cookie_input (page_with_old bad_cookie)) <> [])
    by (vm_compute; discriminate).
  destruct (Hc H1 eq_refl) as (_ & _ & E).
  vm_compute in E. discriminate E.
Qed.

Lemma save_cookie_rejected_witness :
  let w := page_with_old bad_cookie in
  (Py.strip (cookie_input w) <> [] /\
   cfg_clear_cookie (config w) = (Ret tt, ref_config None) /\
   cfg_set_cookie (Py.strip (cookie_input w)) (ref_config None)
   = (Ret false, ref_config None)) /\
  log (save_cookie w)
  = [CfgClearCookie; CfgSetCookie bad_cookie; MsgBox Warning FormatBad] /\
  db_handler (post (save_cookie w)) = db_handler w /\
  config (post (save_cookie w)) = ref_config None.
Proof.
  cbv zeta.
  assert (H1 : Py.strip (cookie_input (page_with_old bad_cookie)) <> [])
    by (vm_compute; discriminate).
  assert (H2 : cfg_clear_cookie (config (page_with_old bad_cookie))
               = (Ret tt, ref_config None)) by reflexivity.
  assert (H3 : cfg_set_cookie
                 (Py.strip (cookie_input (page_with_old bad_cookie)))
                 (ref_config None)
               = (Ret false, ref_config None)) by reflexivity.
  split; [auto|].
  destruct (save_cookie_rejected _ H1 H2 H3) as (L & _ & Hd & Hc & _).
  split; [exact L|]. split; [exact Hd|exact Hc].
Defined.

(** C2, as stated, fails: a save with a malformed cookie shows its warning
    after the configuration has lost its cookie. *)
Lemma malformed_save_changes_config :
  let w := page_with_old bad_cookie in
  let r := dispatch ClickSave w in
  ~ (fst (cfg_set_cookie (Py.strip (cookie_input w))
                         (snd (cfg_clear_cookie (config w)))) = Ret false ->
     In (MsgBox Warning FormatBad) (log r) /\
     config (post r) = config w /\
     db_handler (post r) = db_handler w).
Proof.
  cbv zeta. intros Hc.
  destruct (Hc eq_refl) as (_ & E & _).
  vm_compute in E. discriminate E.
Qed.

Lemma validation_failure_effects_witness :
  let w0 := page_with_old [] in
  let w := page_with_old bad_cookie in
  (Py.strip (cookie_input w0) = [] /\
   Py.strip (cookie_input w) <> [] /\
   cfg_validate_cookie (Py.strip (cookie_input w)) (config w)
   = (Ret false, config w)) /\
  dispatch ClickSave w0 = Run (Ret tt) w0 [MsgBox Warning EnterCookie] /\
  dispatch ClickValidate w
  = Run (Ret tt) (with_config (config w) w)
        [CfgValidateCookie (Py.strip (cookie_input w));
         MsgBox Warning FormatBad].
Proof.
  cbv zeta.
  assert (H0 : Py.strip (cookie_input (page_with_old [])) = [])
    by reflexivity.
  assert (H1 : Py.strip (cookie_input (page_with_old bad_cookie)) <> [])
    by (vm_compute; discriminate).
  assert (H2 : cfg_validate_cookie
                 (Py.strip (cookie_input (page_with_old bad_cookie)))
                 (config (page_with_old bad_cookie))
               = (Ret false, config (page_with_old bad_cookie)))
    by reflexivity.
  split; [auto|]. split.
  - exact (proj1 (validation_failure_effects (page_with_old [])) H0
                 ClickSave (or_intror eq_refl)).
  - exact (proj1 (proj2 (validation_failure_effects
                           (page_with_old bad_cookie))) _ H1 H2).
Defined.

(** C3, as stated, fails: with a well-formed cookie and a
    [config.clear_cookie()] that raises, [save_cookie] calls neither
    [config.set_cookie] nor [db_handler.save_cookie]. *)
Lemma save_stops_at_raising_clear :
  let w := flaky_page (flaky_config true false false false)
                      (flaky_db false false false) good_cookie in
  let text := Py.strip (cookie_input w) in
  ~ (text <> [] ->
     has_required_fields text = true ->
     fst (cfg_set_cookie text (config w)) = Ret true ->
     calls is_set_or_save (log (save_cookie w))
     = [CfgSetCookie text; DbSaveCookie text]).
Proof.
  cbv zeta. intros Hc.
  assert (H1 : Py.strip (cookie_input
                 (flaky_page (flaky_config true false false false)
                             (flaky_db false false false) good_cookie)) <> [])
    by (vm_compute; discriminate).
  specialize (Hc H1 eq_refl eq_refl). vm_compute in Hc. discriminate Hc.
Qed.

Lemma save_cookie_set_then_save_witness :
  let w := page_with_old good_cookie in
  let w1 := flaky_page (flaky_config true false false false)
                       (flaky_db false false false) good_cookie in
  (Py.strip (cookie_input w) <> [] /\
   cfg_clear_cookie (config w) = (Ret tt, ref_config None) /\
   cfg_set_cookie (Py.strip (cookie_input w)) (ref_config None)
   = (Ret true, ref_config (Some good_cookie)) /\
   Py.strip (cookie_input w1) <> [] /\
   cfg_clear_cookie (config w1) = (Raise cfg_error, config w1)) /\
  calls is_set_or_save (log (save_cookie w))
  = [CfgSetCookie good_cookie; DbSaveCookie good_cookie] /\
  config (post (save_cookie w)) = ref_config (Some good_cookie) /\
  db_handler (post (save_cookie w)) = ref_db (Some (good_cookie, false)) false /\
  calls is_set_or_save (log (save_cookie w1)) = [].
Proof.
  intros w w1.
  assert (H1 : Py.strip (cookie_input w) <> [])
    by (vm_compute; discriminate).
  assert (H2 : cfg_clear_cookie (config w) = (Ret tt, ref_config None))
    by reflexivity.
  assert (H3 : cfg_set_cookie (Py.strip (cookie_input w)) (ref_config None)
               = (Ret true, ref_config (Some good_cookie))) by reflexivity.
  assert (H4 : Py.strip (cookie_input w1) <> [])
    by (vm_compute; discriminate).
  assert (H5 : cfg_clear_cookie (config w1) = (Raise cfg_error, config w1))
    by reflexivity.
  split; [auto 10|].
  destruct (proj1 (@save_cookie_set_then_save _ _ _ _ w H1) _ _ H2 H3)
    as (L & _ & _ & _ & Hc & Hd).
  destruct (proj2 (@save_cookie_set_then_save _ _ _ _ w1 H4) _ _ H5)
    as (L1 & _).
  split; [exact L|]. split; [exact Hc|]. split; [exact Hd|exact L1].
Defined.



Lemma load_settings_three_way_witness :
  let w := ref_page None (ref_db (Some (good_cookie, true)) false)
                    (Py.of_string "unsaved edit") in
  db_get_valid_cookie (C := RefCfg) (db_handler w)
  = (Ret (Some good_cookie, true), db_handler w) /\
  label_text (cookie_status_label (post (load_settings w))) = StatusExpiring /\
  cookie_input (post (load_settings w)) = good_cookie.
Proof.
  intros w.
  assert (H1 : db_get_valid_cookie (C := RefCfg) (db_handler w)
               = (Ret (Some good_cookie, true), db_handler w))
    by reflexivity.
  split; [exact H1|].
  refine (proj1 (proj2 (proj2 (@load_settings_three_way _ _ _ _ w _ _ _ H1)))
                good_cookie eq_refl _ eq_refl).
  discriminate.
Defined.

Lemma validate_cookie_effects_witness :
  let w := page_with_old bad_cookie in
  missing_required_field (Py.strip (cookie_input w)) = true /\
  exists m, calls is_msgbox (log (validate_cookie w)) = [MsgBox Warning m].
Proof.
  cbv zeta.
  assert (H1 : missing_required_field
                 (Py.strip (cookie_input (page_with_old bad_cookie))) = true)
    by reflexivity.
  split; [exact H1|].
  destruct (validate_cookie_effects (page_with_old bad_cookie)
              ref_validate_rejects_missing) as (_ & _ & _ & _ & _ & Hw).
  exact (Hw H1).
Defined.

(** C7, as stated, fails: on Yes with a [config.clear_cookie()] that raises,
    [db_handler.clear_cookies] is not called. *)
Lemma clear_stops_at_raising_clear :
  let w := flaky_page (flaky_config true false false false)
                      (flaky_db false false false) old_cookie in
  let r := clear_cookie Yes w in
  ~ (calls is_db_clear_cookies (log r) = [DbClearCookies] /\
     cookie_input (post r) = []).
Proof.
  cbv zeta. intros [Hc _]. vm_compute in Hc. discriminate Hc.
Qed.

Lemma clear_cookie_effects_witness :
  let w := page_with_old old_cookie in
  let r := clear_cookie Yes w in
  let w1 := flaky_page (flaky_config true false false false)
                       (flaky_db false false false) old_cookie in
  (cfg_clear_cookie (config w) = (Ret tt, ref_config None) /\
   cfg_clear_cookie (config w1) = (Raise cfg_error, config w1)) /\
  calls is_db_clear_cookies (log r) = [DbClearCookies] /\
  config (post r) = ref_config None /\
  db_handler (post r) = ref_db None false /\
  cookie_input (post r) = [] /\
  clear_cookie No w = Run (Ret tt) w [Ask AskClearCookie No] /\
  calls is_db_clear_cookies (log (clear_cookie Yes w1)) = [].
Proof.
  intros w r w1.
  assert (H1 : cfg_clear_cookie (config w) = (Ret tt, ref_config None))
    by reflexivity.
  assert (H2 : cfg_clear_cookie (config w1) = (Raise cfg_error, config w1))
    by reflexivity.
  split; [auto|].
  destruct (@clear_cookie_effects _ _ _ _ w) as (Hno & Hyes & _).
  destruct (Hyes _ H1) as (L & _ & Hc & Hd & Hi).
  destruct (@clear_cookie_effects _ _ _ _ w1) as (_ & _ & Hraise).
  destruct (Hraise _ _ H2) as (L1 & _).
  split; [exact L|]. split; [exact Hc|]. split; [exact Hd|].
  split; [exact (Hi (fun _ => eq_refl))|].
  split; [apply Hno; discriminate|exact L1].
Defined.

Lemma clear_database_effects_witness :
  let w := page_with_old [] in
  No <> Yes /\
  clear_database No w = Run (Ret tt) w [Ask AskClearDatabase No] /\
  calls is_db_call (log (clear_database Yes w)) = [DbClearDatabase].
Proof.
  cbv zeta.
  assert (H1 : No <> Yes) by discriminate.
  split; [exact H1|].
  destruct (clear_database_effects (page_with_old [])) as [Hno Hyes].
  split; [exact (Hno No H1)|exact (proj1 Hyes)].
Defined.

Lemma spin_change_writes_batch_witness :
  let w := page_with_old [] in
  let r := dispatch (SpinChange DelayMin 5) w in
  in_range DelayMin 5 <> spin_value DelayMin w /\
  log r = [CfgAssign DelayMin 5; CfgAssign DelayMax 3; CfgAssign MaxRetries 3].
Proof.
  cbv zeta.
  assert (H1 : in_range DelayMin 5 <> spin_value DelayMin (page_with_old []))
    by (vm_compute; discriminate).
  split; [exact H1|].
  exact (proj1 (proj2 (proj2 (spin_change_writes_batch _ _ _ H1)))).
Defined.

Lemma on_cookie_received_rejected_witness :
  let w := page_with_old [] in
  let r := on_cookie_received bad_cookie w in
  cfg_set_cookie bad_cookie (config w) = (Ret false, config w) /\
  log r = [CfgSetCookie bad_cookie] /\
  calls is_msgbox (log r) = [] /\
  cookie_input (post r) = bad_cookie.
Proof.
  intros w r.
  assert (H1 : cfg_set_cookie bad_cookie (config w) = (Ret false, config w))
    by reflexivity.
  split; [exact H1|].
  destruct (@on_cookie_received_rejected _ _ _ _ w _ _ H1)
    as (L & _ & _ & Hm & _ & _ & _ & Hi).
  split; [exact L|]. split; [exact Hm|exact Hi].
Defined.

(** ** Further properties of the page *)

Lemma in_range_bounds (p : param) (v : Z) : value_in_range p (in_range p v).
Proof.
  unfold value_in_range, in_range, clamp. destruct p; cbn; lia.
Qed.

Lemma in_range_fixes (p : param) (v : Z) :
  value_in_range p v -> in_range p v = v.
Proof.
  unfold value_in_range, in_range, clamp. destruct p; cbn; lia.
Qed.

Section MoreFacts.

Context {C D H : Type} {K : Collaborators C D H}.

Implicit Types (w : SettingsPage C D H) (cookie text : Py.str).

(** *** Exceptions stay inside the slots *)

Lemma dispatch_returns (a : action) w : res (dispatch a w) = Ret tt.
Proof.
  destruct a as [| | |reply|reply| |p v|cookie|text];
    try destruct reply; unfold_slots; slot_cases; reflexivity.
Qed.

(** A sequence of actions runs them one after the other, on the page the
    previous one left, and logs add up. *)
Lemma dispatch_all_cons (a : action) (l : list action) w :
  dispatch_all (a :: l) w
  = Run (res (dispatch_all l (post (dispatch a w))))
        (post (dispatch_all l (post (dispatch a w))))
        (log (dispatch a w) ++ log (dispatch_all l (post (dispatch a w)))).
Proof.
  cbn [dispatch_all]. unfold bind.
  pose proof (dispatch_returns a w) as E.
  destruct (dispatch a w) as [o s1 l1]. cbn in E. subst o. cbn.
  destruct (dispatch_all l s1); reflexivity.
Qed.

Lemma dispatch_all_invariant (I : SettingsPage C D H -> Prop) :
  (forall a w, I w -> I (post (dispatch a w))) ->
  forall l w, I w -> I (post (dispatch_all l w)).
Proof.
  intros Hstep l. induction l as [|a l IH]; intros w Hw.
  - exact Hw.
  - rewrite dispatch_all_cons. cbn. apply IH, Hstep, Hw.
Qed.

(** X1. Whatever the collaborators return, and whichever exception deriving
    from [Exception] they raise, no slot of the page lets it escape: every
    sequence of clicks, edits and helper signals runs to its end.  (Every
    collaborator call of the slots sits in a [try ... except Exception].) *)
Theorem no_exception_escapes (l : list action) w :
  res (dispatch_all l w) = Ret tt.
Proof.
  revert w. induction l as [|a l IH]; intros w.
  - reflexivity.
  - rewrite dispatch_all_cons. cbn. apply IH.
Qed.

(** X2. A cookie field that holds nothing but white space is treated as
    empty: the validate and the save button only warn, and call neither the
    configuration nor the database. *)
Theorem blank_input_ignored w (a : action) :
  forallb Py.isspace (cookie_input w) = true ->
  a = ClickValidate \/ a = ClickSave ->
  dispatch a w = Run (Ret tt) w [MsgBox Warning EnterCookie].
Proof.
  intros Hs Ha. apply empty_input_run; [|exact Ha].
  apply strip_all_space, Hs.
Qed.

(** *** [load_settings] at its edges *)

(** X3. When [get_valid_cookie] raises, [load_settings] shows the error and
    leaves the status label and the input field as they were. *)
Theorem load_settings_failure w e d' :
  db_get_valid_cookie (db_handler w) = (Raise e, d') ->
  let r := load_settings w in
  log r = [DbGetValidCookie; MsgBox Critical (LoadFailed e)] /\
  cookie_status_label (post r) = cookie_status_label w /\
  cookie_input (post r) = cookie_input w /\
  config (post r) = config w.
Proof.
  intros E. cbv zeta. unfold_slots. cbn. rewrite E. cbn. auto.
Qed.

(** X4. When [get_valid_cookie] returns no cookie, [None] or the empty
    string alike, [load_settings] sets the red "unset" status and does not
    touch the input field: text that was there stays. *)
Theorem load_settings_no_cookie w o soon d' :
  db_get_valid_cookie (db_handler w) = (Ret (o, soon), d') ->
  Py.truthy_opt o = false ->
  let r := load_settings w in
  cookie_status_label (post r)
  = {| label_text := StatusUnset; label_color := "#ff0000" |} /\
  cookie_input (post r) = cookie_input w /\
  log r = [DbGetValidCookie].
Proof.
  intros E Ho. cbv zeta. unfold_slots. cbn. rewrite E. cbn.
  destruct o as [[|c s]|]; cbn in *; try discriminate Ho; auto.
Qed.

(** *** [validate_cookie] and [save_cookie] when a collaborator raises *)

(** X5. When [config.validate_cookie] raises, [validate_cookie] shows the
    error dialog with the exception's text and does nothing else. *)
Theorem validate_cookie_exception w e c' :
  Py.strip (cookie_input w) <> [] ->
  cfg_validate_cookie (Py.strip (cookie_input w)) (config w) = (Raise e, c') ->
  validate_cookie w
  = Run (Ret tt) (with_config c' w)
        [CfgValidateCookie (Py.strip (cookie_input w));
         MsgBox Critical (ValidateFailed e)].
Proof.
  intros Hne E. apply strip_truthy in Hne.
  unfold_slots. cbn. rewrite Hne. cbn. rewrite E. reflexivity.
Qed.

(** X6. When [config.clear_cookie] or [config.set_cookie] raises during
    [save_cookie], the error is shown and the database is not called at
    all; after a raising [clear_cookie], [set_cookie] is not called
    either. *)
Theorem save_cookie_config_failure w :
  Py.strip (cookie_input w) <> [] ->
  let text := Py.strip (cookie_input w) in
  (forall e c1,
     cfg_clear_cookie (config w) = (Raise e, c1) ->
     save_cookie w
     = Run (Ret tt) (with_config c1 w)
           [CfgClearCookie; MsgBox Critical (SaveFailed e)]) /\
  (forall c1 e c2,
     cfg_clear_cookie (config w) = (Ret tt, c1) ->
     cfg_set_cookie text c1 = (Raise e, c2) ->
     save_cookie w
     = Run (Ret tt) (with_config c2 w)
           [CfgClearCookie; CfgSetCookie text;
            MsgBox Critical (SaveFailed e)]).
Proof.
  intros Hne. apply strip_truthy in Hne. cbv zeta. split.
  - intros e c1 E1. unfold_slots. cbn. rewrite Hne. cbn. rewrite E1.
    reflexivity.
  - intros c1 e c2 E1 E2. unfold_slots. cbn. rewrite Hne. cbn. rewrite E1.
    cbn. rewrite E2. reflexivity.
Qed.

(** X7. When the configuration has accepted the cookie and
    [db_handler.save_cookie] raises, [save_cookie] shows the error and stops:
    the configuration keeps the new cookie although the database did not
    store it, and the status is not reloaded. *)
Theorem save_cookie_database_failure w c1 c2 e d1 :
  Py.strip (cookie_input w) <> [] ->
  cfg_clear_cookie (config w) = (Ret tt, c1) ->
  cfg_set_cookie (Py.strip (cookie_input w)) c1 = (Ret true, c2) ->
  db_save_cookie (Py.strip (cookie_input w)) (db_handler w) = (Raise e, d1) ->
  let r := save_cookie w in
  log r = [CfgClearCookie; CfgSetCookie (Py.strip (cookie_input w));
           DbSaveCookie (Py.strip (cookie_input w));
           MsgBox Critical (SaveFailed e)] /\
  config (post r) = c2 /\
  db_handler (post r) = d1 /\
  cookie_status_label (post r) = cookie_status_label w /\
  cookie_input (post r) = cookie_input w.
Proof.
  intros Hne E1 E2 E3. apply strip_truthy in Hne. cbv zeta.
  unfold_slots. cbn. rewrite Hne. cbn. rewrite E1. cbn. rewrite E2. cbn.
  rewrite E3. cbn. auto 10.
Qed.

(** X8. A failing reload does not stop the success dialog: when the cookie
    was accepted and saved but [get_valid_cookie] then raises, [save_cookie]
    shows the reload error and after it "saved successfully". *)
Theorem save_cookie_success_after_failed_reload w c1 c2 d1 e d2 :
  Py.strip (cookie_input w) <> [] ->
  cfg_clear_cookie (config w) = (Ret tt, c1) ->
  cfg_set_cookie (Py.strip (cookie_input w)) c1 = (Ret true, c2) ->
  db_save_cookie (Py.strip (cookie_input w)) (db_handler w) = (Ret tt, d1) ->
  db_get_valid_cookie d1 = (Raise e, d2) ->
  log (save_cookie w)
  = [CfgClearCookie; CfgSetCookie (Py.strip (cookie_input w));
     DbSaveCookie (Py.strip (cookie_input w)); DbGetValidCookie;
     MsgBox Critical (LoadFailed e); MsgBox Information SaveOk].
Proof.
  intros Hne E1 E2 E3 E4. apply strip_truthy in Hne.
  unfold_slots. cbn. rewrite Hne. cbn. rewrite E1. cbn. rewrite E2. cbn.
  rewrite E3. cbn. rewrite E4. reflexivity.
Qed.

(** X9. Save then reload: when the cookie is accepted and saved and the
    database then reports that same text, the input field is set with
    [setText] to the stripped text (not to what was typed), the status is
    "valid" or "expiring" by the reported flag, and one success dialog is
    shown. *)
Theorem save_cookie_round_trip w c1 c2 d1 soon d2 :
  Py.strip (cookie_input w) <> [] ->
  cfg_clear_cookie (config w) = (Ret tt, c1) ->
  cfg_set_cookie (Py.strip (cookie_input w)) c1 = (Ret true, c2) ->
  db_save_cookie (Py.strip (cookie_input w)) (db_handler w) = (Ret tt, d1) ->
  db_get_valid_cookie d1
  = (Ret (Some (Py.strip (cookie_input w)), soon), d2) ->
  let r := save_cookie w in
  cookie_input (post r) = plain_text_of (Py.strip (cookie_input w)) /\
  label_text (cookie_status_label (post r))
  = (if soon then StatusExpiring else StatusValid) /\
  config (post r) = c2 /\
  db_handler (post r) = d2 /\
  calls is_msgbox (log r) = [MsgBox Information SaveOk].
Proof.
  intros Hne E1 E2 E3 E4. pose proof Hne as Ht. apply strip_truthy in Ht.
  cbv zeta. unfold_slots. cbn. rewrite Ht. cbn. rewrite E1. cbn.
  rewrite E2. cbn. rewrite E3. cbn. rewrite E4. cbn. rewrite Ht.
  destruct soon; cbn; auto 10.
Qed.

(** *** Clearing when a collaborator raises *)

(** X10. When [config.clear_cookie] raises during [clear_cookie], the input
    field has already been emptied, [db_handler.clear_cookies] is not called
    and the database is as before; the error is shown. *)
Theorem clear_cookie_config_failure w e c1 :
  cfg_clear_cookie (config w) = (Raise e, c1) ->
  let r := clear_cookie Yes w in
  log r = [Ask AskClearCookie Yes; CfgClearCookie;
           MsgBox Critical (ClearFailed e)] /\
  cookie_input (post r) = [] /\
  db_handler (post r) = db_handler w /\
  cookie_status_label (post r) = cookie_status_label w.
Proof.
  intros E. cbv zeta. unfold_slots. cbn. rewrite E. cbn. auto.
Qed.

(** X11. When [db_handler.clear_cookies] raises during [clear_cookie], the
    configuration's cookie and the input field are already cleared, the
    status is not reloaded (the label keeps its text), and the error is
    shown. *)
Theorem clear_cookie_database_failure w c1 e d1 :
  cfg_clear_cookie (config w) = (Ret tt, c1) ->
  db_clear_cookies (db_handler w) = (Raise e, d1) ->
  let r := clear_cookie Yes w in
  log r = [Ask AskClearCookie Yes; CfgClearCookie; DbClearCookies;
           MsgBox Critical (ClearFailed e)] /\
  cookie_input (post r) = [] /\
  config (post r) = c1 /\
  cookie_status_label (post r) = cookie_status_label w.
Proof.
  intros E1 E2. cbv zeta. unfold_slots. cbn. rewrite E1. cbn. rewrite E2.
  cbn. auto.
Qed.

(** X12. On Yes, [clear_database] ends with the success dialog when
    [db_handler.clear_database()] returns and with the error dialog when it
    raises; in both cases the status label, the input field and the
    configuration stay as they were (the cookie status is not reloaded). *)
Theorem clear_database_outcomes w o d1 :
  db_clear_database (db_handler w) = (o, d1) ->
  clear_database Yes w
  = Run (Ret tt) (with_db d1 w)
        [Ask AskClearDatabase Yes; DbClearDatabase; clear_database_dialog o].
Proof.
  intros E. unfold_slots. cbn. rewrite E. destruct o as [[]|e]; reflexivity.
Qed.

(** *** Which actions reach the database *)

Lemma destructive_call_origin (a : action) w :
  (In DbClearDatabase (log (dispatch a w)) -> a = ClickClearDatabase Yes) /\
  (In DbClearCookies (log (dispatch a w)) -> a = ClickClear Yes).
Proof.
  destruct a as [| | |reply|reply| |p v|cookie|text];
    try destruct reply; unfold_slots; slot_cases;
    split; intros Hin; cbn in Hin; try reflexivity;
    repeat (destruct Hin as [Hin|Hin]; try discriminate Hin);
    try contradiction.
Qed.

(** X13. In any sequence of actions, [db_handler.clear_database()] is called
    only if the user answered Yes to the clear-database question, and
    [db_handler.clear_cookies()] only if the user answered Yes to the
    clear-cookie question. *)
Theorem destructive_calls_need_yes (l : list action) w :
  (In DbClearDatabase (log (dispatch_all l w)) ->
   In (ClickClearDatabase Yes) l) /\
  (In DbClearCookies (log (dispatch_all l w)) -> In (ClickClear Yes) l).
Proof.
  revert w. induction l as [|a l IH]; intros w.
  - split; intros [].
  - rewrite dispatch_all_cons. cbn [log].
    destruct (destructive_call_origin a w) as [H1 H2].
    destruct (IH (post (dispatch a w))) as [I1 I2].
    split; intros Hin; apply in_app_or in Hin as [Hin|Hin].
    + left. exact (H1 Hin).
    + right. exact (I1 Hin).
    + left. exact (H2 Hin).
    + right. exact (I2 Hin).
Qed.

(** X14. A cookie is written to the database only by the save button, and
    then it is the stripped text of the input field, or by the helper's
    signal, and then it is the string the helper sent. *)
Theorem database_save_origin (a : action) w s :
  In (DbSaveCookie s) (log (dispatch a w)) ->
  (a = ClickSave /\ s = Py.strip (cookie_input w)) \/ a = CookieReady s.
Proof.
  destruct a as [| | |reply|reply| |p v|cookie|text];
    try destruct reply; unfold_slots; slot_cases;
    intros Hin; cbn in Hin;
    repeat (destruct Hin as [Hin|Hin]; try discriminate Hin);
    try contradiction; injection Hin as <-; auto.
Qed.

(** *** Spin boxes and the configuration's parameters *)

Lemma spin_value_after (a : action) w q :
  spin_value q (post (dispatch a w)) = spin_value q w \/
  exists v, a = SpinChange q v /\
            spin_value q (post (dispatch a w)) = in_range q v.
Proof.
  destruct a as [| | |reply|reply| |p v|cookie|text];
    try destruct reply;
    try (unfold_slots; slot_cases; left; destruct q; reflexivity).
  unfold dispatch, spin_changed, bind, gets, modify.
  destruct (in_range p v =? spin_value p w)%Z.
  - left. reflexivity.
  - rewrite save_settings_run. cbn [post].
    destruct p, q; try (left; reflexivity);
      right; eexists; split; reflexivity.
Qed.

Lemma spins_stay_in_range (a : action) w :
  spins_in_range w -> spins_in_range (post (dispatch a w)).
Proof.
  intros Hw q. destruct (spin_value_after a w q) as [E | (v & _ & E)];
    rewrite E; [apply Hw|apply in_range_bounds].
Qed.

Lemma init_ui_in_range (c : Config C) (d : D) :
  spins_in_range (init_ui (H := H) c d).
Proof. intros p. destruct p; apply in_range_bounds. Qed.

Lemma new_page_in_range (c : Config C) (d : D) :
  spins_in_range (post (new_page c d)).
Proof.
  intros p. unfold new_page. rewrite load_settings_spins.
  apply init_ui_in_range.
Qed.

(** X15. Whatever values the configuration holds when the page is built and
    whatever numbers are entered afterwards, the three spin boxes always
    hold values within their ranges: [0,100], [0,100] and [0,10]. *)
Theorem reachable_spins_in_range (c : Config C) (d : D) (l : list action) :
  let w := post (dispatch_all l (post (new_page c d))) in
  (0 <= min_delay w <= 100)%Z /\
  (0 <= max_delay w <= 100)%Z /\
  (0 <= max_retries w <= 10)%Z.
Proof.
  cbv zeta.
  assert (Hr : spins_in_range (post (dispatch_all l (post (new_page c d))))).
  { apply (@dispatch_all_invariant spins_in_range).
    - intros a w. apply spins_stay_in_range.
    - apply new_page_in_range. }
  split; [exact (Hr DelayMin)|split; [exact (Hr DelayMax)|exact (Hr MaxRetries)]].
Qed.

Lemma assignment_in_range (a : action) w p v :
  spins_in_range w ->
  In (CfgAssign p v) (log (dispatch a w)) -> value_in_range p v.
Proof.
  intros Hw Hin.
  assert (Hf : In (CfgAssign p v) (calls is_assign (log (dispatch a w))))
    by (apply filter_In; split; [exact Hin|reflexivity]).
  pose proof (spins_stay_in_range a Hw) as Hpost.
  destruct (assignments_none_or_batch a w) as [E|E]; rewrite E in Hf.
  - destruct Hf.
  - cbn in Hf.
    destruct Hf as [Hf|[Hf|[Hf|[]]]]; injection Hf as <- <-.
    + exact (Hpost DelayMin).
    + exact (Hpost DelayMax).
    + exact (Hpost MaxRetries).
Qed.

(** X16. Every value the page ever assigns to [DELAY_MIN], [DELAY_MAX] or
    [MAX_RETRIES] lies within the range of the corresponding spin box, even
    when the configuration started with values outside it. *)
Theorem reachable_assignments_in_range
    (c : Config C) (d : D) (l : list action) p v :
  In (CfgAssign p v) (log (dispatch_all l (post (new_page c d)))) ->
  value_in_range p v.
Proof.
  generalize (new_page_in_range c d).
  generalize (post (new_page c d)) as w.
  induction l as [|a l IH]; intros w Hw Hin.
  - destruct Hin.
  - rewrite dispatch_all_cons in Hin. cbn [log] in Hin.
    apply in_app_or in Hin as [Hin|Hin].
    + eapply assignment_in_range; eassumption.
    + eapply IH; [|exact Hin]. apply spins_stay_in_range, Hw.
Qed.

(** X17. Entering a number whose bounded value is the one the spin box
    already shows (its own value, or anything beyond a bound it sits at)
    changes nothing and writes nothing to the configuration. *)
Theorem spin_same_value_noop w p v :
  in_range p v = spin_value p w ->
  dispatch (SpinChange p v) w = Run (Ret tt) w [].
Proof.
  intros E. apply Z.eqb_eq in E.
  unfold dispatch, spin_changed, bind, gets. rewrite E. reflexivity.
Qed.

(** X18. The two delays are not checked against each other: any new minimum
    delay within [0,100] is written to [DELAY_MIN] as it is, next to the
    unchanged maximum, also when it is larger than the maximum. *)
Theorem no_cross_field_check w v :
  (0 <= v <= 100)%Z ->
  v <> min_delay w ->
  let w' := post (dispatch (SpinChange DelayMin v) w) in
  DELAY_MIN (config w') = v /\
  DELAY_MAX (config w') = max_delay w /\
  min_delay w' = v /\
  max_delay w' = max_delay w.
Proof.
  intros Hv Hne. cbv zeta.
  assert (E : in_range DelayMin v = v)
    by (apply in_range_fixes; exact Hv).
  unfold dispatch, spin_changed, bind, gets, modify. rewrite E.
  apply Z.eqb_neq in Hne. cbn [spin_value]. rewrite Hne.
  rewrite save_settings_run. cbn. auto.
Qed.

(** X19. Building the page never writes to the configuration.  When the
    three configuration values fit a C [int], the page is built: the spin
    boxes show the values bounded to their ranges, no helper exists yet, and
    the only call made is one [db_handler.get_valid_cookie()].  When one of
    them does not fit, [setValue] raises [OverflowError] and construction
    fails before any call on a collaborator. *)
Theorem new_page_effects (c : Config C) (d : D) :
  (config_fits c = true ->
   exists r, SettingsPage_init c d = Ret r /\
     config (post r) = c /\
     calls is_cfg_call (log r) = [] /\
     calls is_db_call (log r) = [DbGetValidCookie] /\
     db_handler (post r) = snd (db_get_valid_cookie d) /\
     cookie_helper (post r) = None /\
     min_delay (post r) = in_range DelayMin (DELAY_MIN c) /\
     max_delay (post r) = in_range DelayMax (DELAY_MAX c) /\
     max_retries (post r) = in_range MaxRetries (MAX_RETRIES c)) /\
  (config_fits c = false ->
   SettingsPage_init (H := H) c d = Raise overflow_error).
Proof.
  unfold SettingsPage_init. split; intros E; rewrite E; [|reflexivity].
  exists (new_page c d). split; [reflexivity|]. unfold new_page.
  pose proof (load_settings_spins (init_ui c d)) as Hs.
  split; [apply load_settings_config|].
  split; [destruct (load_settings_log (init_ui c d)) as [E1|[e E1]];
          rewrite E1; reflexivity|].
  split; [destruct (load_settings_log (init_ui c d)) as [E1|[e E1]];
          rewrite E1; reflexivity|].
  split; [apply load_settings_db|].
  split; [unfold_slots; slot_cases; reflexivity|].
  split; [exact (Hs DelayMin)|split; [exact (Hs DelayMax)|exact (Hs MaxRetries)]].
Qed.

(** *** The status label *)

Lemma label_stays_consistent (a : action) w :
  label_consistent (cookie_status_label w) ->
  label_consistent (cookie_status_label (post (dispatch a w))).
Proof.
  intros Hw.
  destruct a as [| | |reply|reply| |p v|cookie|text];
    try destruct reply; unfold_slots; slot_cases;
    first [exact Hw | reflexivity].
Qed.

(** X20. From the moment the page is built, the colour of the status label
    always goes with its text: red with "unset", orange with "expiring" (and
    with the initial text), green with "valid". *)
Theorem reachable_label_consistent (c : Config C) (d : D) (l : list action) :
  label_consistent
    (cookie_status_label (post (dispatch_all l (post (new_page c d))))).
Proof.
  apply (@dispatch_all_invariant
           (fun w => label_consistent (cookie_status_label w))).
  - intros a w. apply label_stays_consistent.
  - unfold new_page. unfold_slots. slot_cases; reflexivity.
Qed.

(** *** The cookie helper and closing *)

(** X21. [show_cookie_helper] keeps the helper it built, replacing any
    earlier one; when the constructor raises it shows the error and the
    page, with its earlier helper, is unchanged.  It never calls a method of
    the configuration or the database. *)
Theorem show_cookie_helper_effects w :
  let r := show_cookie_helper w in
  (forall h, new_cookie_helper (config w) (db_handler w) = Ret h ->
     r = Run (Ret tt) (with_helper (Some h) w) [HelperNew]) /\
  (forall e, new_cookie_helper (config w) (db_handler w) = Raise e ->
     r = Run (Ret tt) w [HelperNew; MsgBox Critical (HelperStartFailed e)]) /\
  calls is_cfg_call (log r) = [] /\
  calls is_db_call (log r) = [].
Proof.
  cbv zeta. unfold_slots.
  destruct (new_cookie_helper (config w) (db_handler w)) as [h|e];
    cbn; (split; [|split; [|split]]); try reflexivity;
    intros x Hx; first [discriminate Hx | injection Hx as <-; reflexivity].
Qed.

(** X22. [closeEvent] with a [cleanup()] that returns: the helper, if there
    is one, is cleaned up once, the page forgets it, and the event is
    accepted; closing again cleans nothing. *)
Theorem closeEvent_cleans_once (cleanup : H -> outcome unit) w :
  (forall h, cookie_helper w = Some h -> cleanup h = Ret tt) ->
  let r := closeEvent cleanup w in
  close_res r = Ret tt /\
  accepted r = true /\
  cookie_helper (close_page r) = None /\
  cleaned r = match cookie_helper w with Some h => [h] | None => [] end /\
  cleaned (closeEvent cleanup (close_page r)) = [].
Proof.
  intros Hc. cbv zeta. unfold closeEvent.
  destruct (cookie_helper w) as [h|] eqn:E.
  - rewrite (Hc h eq_refl). cbn. auto.
  - cbn. rewrite E. auto.
Qed.


(** X24. Asking for the helper a second time replaces the first helper
    without cleaning it up: closing the page afterwards calls [cleanup()]
    on the second helper only. *)
Theorem replaced_helper_not_cleaned (cleanup : H -> outcome unit) w h0 h1 :
  cookie_helper w = Some h0 ->
  new_cookie_helper (config w) (db_handler w) = Ret h1 ->
  cleaned (closeEvent cleanup (post (show_cookie_helper w))) = [h1].
Proof.
  intros E0 E1. unfold_slots. rewrite E1. cbn. unfold closeEvent. cbn.
  destruct (cleanup h1); reflexivity.
Qed.

(** *** The helper's callback *)

(** X25. A failing reload does not stop the helper's success dialog either:
    when the cookie was accepted and saved but [get_valid_cookie] then
    raises, [on_cookie_received] shows the reload error and after it
    "cookie obtained and saved"; the input field is as [setText] of the
    received string left it. *)
Theorem on_cookie_received_failed_reload w cookie c1 d1 e d2 :
  cfg_set_cookie cookie (config w) = (Ret true, c1) ->
  db_save_cookie cookie (db_handler w) = (Ret tt, d1) ->
  db_get_valid_cookie d1 = (Raise e, d2) ->
  let r := on_cookie_received cookie w in
  log r = [CfgSetCookie cookie; DbSaveCookie cookie; DbGetValidCookie;
           MsgBox Critical (LoadFailed e);
           MsgBox Information CookieObtained] /\
  cookie_input (post r) = plain_text_of cookie /\
  cookie_status_label (post r) = cookie_status_label w.
Proof.
  intros E1 E2 E3. cbv zeta. unfold_slots. cbn. rewrite E1. cbn.
  rewrite E2. cbn. rewrite E3. cbn. auto.
Qed.

End MoreFacts.

(** ** The further properties on the stand-ins *)

Lemma blank_input_ignored_witness :
  let w := page_with_old (Py.of_string "   ") in
  forallb Py.isspace (cookie_input w) = true /\
  dispatch ClickSave w = Run (Ret tt) w [MsgBox Warning EnterCookie].
Proof.
  intros w.
  assert (H1 : forallb Py.isspace (cookie_input w) = true) by reflexivity.
  split; [exact H1|].
  exact (@blank_input_ignored _ _ _ _ w ClickSave H1 (or_intror eq_refl)).
Defined.

Lemma load_settings_failure_witness :
  let w := locked_page (Py.of_string "typed") in
  db_get_valid_cookie (C := RefCfg) (db_handler w)
  = (Raise db_locked_error, db_handler w) /\
  log (load_settings w)
  = [DbGetValidCookie; MsgBox Critical (LoadFailed db_locked_error)] /\
  cookie_status_label (post (load_settings w)) = cookie_status_label w.
Proof.
  intros w.
  assert (H1 : db_get_valid_cookie (C := RefCfg) (db_handler w)
               = (Raise db_locked_error, db_handler w)) by reflexivity.
  split; [exact H1|].
  destruct (@load_settings_failure _ _ _ _ w _ _ H1) as (L & Hl & _).
  split; [exact L|exact Hl].
Defined.

Lemma load_settings_no_cookie_witness :
  let w := ref_page None (ref_db (Some ([], false)) false)
                    (Py.of_string "typed") in
  (db_get_valid_cookie (C := RefCfg) (db_handler w)
   = (Ret (Some [], false), db_handler w) /\
   Py.truthy_opt (Some []) = false) /\
  label_text (cookie_status_label (post (load_settings w))) = StatusUnset /\
  cookie_input (post (load_settings w)) = Py.of_string "typed".
Proof.
  intros w.
  assert (H1 : db_get_valid_cookie (C := RefCfg) (db_handler w)
               = (Ret (Some [], false), db_handler w)) by reflexivity.
  assert (H2 : Py.truthy_opt (Some []) = false) by reflexivity.
  split; [auto|].
  destruct (@load_settings_no_cookie _ _ _ _ w _ _ _ H1 H2) as (Hl & Hi & _).
  split; [exact (f_equal label_text Hl)|exact Hi].
Defined.

Lemma validate_cookie_exception_witness :
  let w := flaky_page (flaky_config false false true false)
                      (flaky_db false false false) bad_cookie in
  (Py.strip (cookie_input w) <> [] /\
   cfg_validate_cookie (Py.strip (cookie_input w)) (config w)
   = (Raise cfg_error, config w)) /\
  log (validate_cookie w)
  = [CfgValidateCookie bad_cookie; MsgBox Critical (ValidateFailed cfg_error)].
Proof.
  intros w.
  assert (H1 : Py.strip (cookie_input w) <> [])
    by (vm_compute; discriminate).
  assert (H2 : cfg_validate_cookie (Py.strip (cookie_input w)) (config w)
               = (Raise cfg_error, config w)) by reflexivity.
  split; [auto|].
  exact (f_equal (@log _ _) (@validate_cookie_exception _ _ _ _ w _ _ H1 H2)).
Defined.

Lemma save_cookie_config_failure_witness :
  let w1 := flaky_page (flaky_config true false false false)
                       (flaky_db false false false) good_cookie in
  let w2 := flaky_page (flaky_config false true false false)
                       (flaky_db false false false) good_cookie in
  (Py.strip (cookie_input w1) <> [] /\
   cfg_clear_cookie (config w1) = (Raise cfg_error, config w1) /\
   cfg_clear_cookie (config w2) = (Ret tt, config w2) /\
   cfg_set_cookie (Py.strip (cookie_input w2)) (config w2)
   = (Raise cfg_error, config w2)) /\
  save_cookie w1
  = Run (Ret tt) w1 [CfgClearCookie; MsgBox Critical (SaveFailed cfg_error)] /\
  save_cookie w2
  = Run (Ret tt) w2 [CfgClearCookie; CfgSetCookie good_cookie;
                     MsgBox Critical (SaveFailed cfg_error)].
Proof.
  intros w1 w2.
  assert (H1 : Py.strip (cookie_input w1) <> [])
    by (vm_compute; discriminate).
  assert (H1' : Py.strip (cookie_input w2) <> [])
    by (vm_compute; discriminate).
  assert (H2 : cfg_clear_cookie (config w1) = (Raise cfg_error, config w1))
    by reflexivity.
  assert (H3 : cfg_clear_cookie (config w2) = (Ret tt, config w2))
    by reflexivity.
  assert (H4 : cfg_set_cookie (Py.strip (cookie_input w2)) (config w2)
               = (Raise cfg_error, config w2)) by reflexivity.
  split; [auto|]. split.
  - exact (proj1 (@save_cookie_config_failure _ _ _ _ w1 H1) _ _ H2).
  - exact (proj2 (@save_cookie_config_failure _ _ _ _ w2 H1') _ _ _ H3 H4).
Defined.

Lemma save_cookie_database_failure_witness :
  let w := locked_page good_cookie in
  (Py.strip (cookie_input w) <> [] /\
   cfg_clear_cookie (config w) = (Ret tt, ref_config None) /\
   cfg_set_cookie (Py.strip (cookie_input w)) (ref_config None)
   = (Ret true, ref_config (Some good_cookie)) /\
   db_save_cookie (C := RefCfg) (Py.strip (cookie_input w)) (db_handler w)
   = (Raise db_locked_error, db_handler w)) /\
  config (post (save_cookie w)) = ref_config (Some good_cookie) /\
  db_handler (post (save_cookie w)) = db_handler w /\
  cookie_status_label (post (save_cookie w)) = cookie_status_label w.
Proof.
  intros w.
  assert (H1 : Py.strip (cookie_input w) <> [])
    by (vm_compute; discriminate).
  assert (H2 : cfg_clear_cookie (config w) = (Ret tt, ref_config None))
    by reflexivity.
  assert (H3 : cfg_set_cookie (Py.strip (cookie_input w)) (ref_config None)
               = (Ret true, ref_config (Some good_cookie))) by reflexivity.
  assert (H4 : db_save_cookie (C := RefCfg) (Py.strip (cookie_input w))
                 (db_handler w)
               = (Raise db_locked_error, db_handler w)) by reflexivity.
  split; [auto|].
  destruct (@save_cookie_database_failure _ _ _ _ w _ _ _ _ H1 H2 H3 H4)
    as (_ & Hc & Hd & Hl & _).
  auto.
Defined.

Lemma save_cookie_success_after_failed_reload_witness :
  let w := flaky_page (flaky_config false false false false)
                      (flaky_db true false false) good_cookie in
  let d1 := flaky_hold (Some (good_cookie, false)) (db_handler w) in
  (Py.strip (cookie_input w) <> [] /\
   cfg_clear_cookie (config w) = (Ret tt, config w) /\
   cfg_set_cookie (Py.strip (cookie_input w)) (config w)
   = (Ret true, config w) /\
   db_save_cookie (C := FlakyCfg) (Py.strip (cookie_input w)) (db_handler w)
   = (Ret tt, d1) /\
   db_get_valid_cookie (C := FlakyCfg) d1 = (Raise db_error, d1)) /\
  log (save_cookie w)
  = [CfgClearCookie; CfgSetCookie good_cookie; DbSaveCookie good_cookie;
     DbGetValidCookie; MsgBox Critical (LoadFailed db_error);
     MsgBox Information SaveOk].
Proof.
  intros w d1.
  assert (H1 : Py.strip (cookie_input w) <> [])
    by (vm_compute; discriminate).
  assert (H2 : cfg_clear_cookie (config w) = (Ret tt, config w))
    by reflexivity.
  assert (H3 : cfg_set_cookie (Py.strip (cookie_input w)) (config w)
               = (Ret true, config w)) by reflexivity.
  assert (H4 : db_save_cookie (C := FlakyCfg) (Py.strip (cookie_input w))
                 (db_handler w) = (Ret tt, d1)) by reflexivity.
  assert (H5 : db_get_valid_cookie (C := FlakyCfg) d1 = (Raise db_error, d1))
    by reflexivity.
  split; [auto 10|].
  exact (@save_cookie_success_after_failed_reload _ _ _ _ w _ _ _ _ _
           H1 H2 H3 H4 H5).
Defined.

Lemma save_cookie_round_trip_witness :
  let w := page_with_old
             (Py.of_string "  SESSDATA=abc; bili_jct=def; DedeUserID=42 ") in
  let d1 := ref_db (Some (good_cookie, false)) false in
  (Py.strip (cookie_input w) <> [] /\
   cfg_clear_cookie (config w) = (Ret tt, ref_config None) /\
   cfg_set_cookie (Py.strip (cookie_input w)) (ref_config None)
   = (Ret true, ref_config (Some good_cookie)) /\
   db_save_cookie (C := RefCfg) (Py.strip (cookie_input w)) (db_handler w)
   = (Ret tt, d1) /\
   db_get_valid_cookie (C := RefCfg) d1
   = (Ret (Some (Py.strip (cookie_input w)), false), d1)) /\
  cookie_input (post (save_cookie w)) = good_cookie /\
  label_text (cookie_status_label (post (save_cookie w))) = StatusValid.
Proof.
  intros w d1.
  assert (H1 : Py.strip (cookie_input w) <> [])
    by (vm_compute; discriminate).
  assert (H2 : cfg_clear_cookie (config w) = (Ret tt, ref_config None))
    by reflexivity.
  assert (H3 : cfg_set_cookie (Py.strip (cookie_input w)) (ref_config None)
               = (Ret true, ref_config (Some good_cookie))) by reflexivity.
  assert (H4 : db_save_cookie (C := RefCfg) (Py.strip (cookie_input w))
                 (db_handler w) = (Ret tt, d1)) by reflexivity.
  assert (H5 : db_get_valid_cookie (C := RefCfg) d1
               = (Ret (Some (Py.strip (cookie_input w)), false), d1))
    by reflexivity.
  split; [auto 10|].
  destruct (@save_cookie_round_trip _ _ _ _ w _ _ _ _ _ H1 H2 H3 H4 H5)
    as (Hi & Hl & _).
  split; [exact Hi|exact Hl].
Defined.

Lemma clear_cookie_config_failure_witness :
  let w := flaky_page (flaky_config true false false false)
                      (flaky_db false false false) old_cookie in
  cfg_clear_cookie (config w) = (Raise cfg_error, config w) /\
  cookie_input (post (clear_cookie Yes w)) = [] /\
  db_handler (post (clear_cookie Yes w)) = db_handler w.
Proof.
  intros w.
  assert (H1 : cfg_clear_cookie (config w) = (Raise cfg_error, config w))
    by reflexivity.
  split; [exact H1|].
  destruct (@clear_cookie_config_failure _ _ _ _ w _ _ H1)
    as (_ & Hi & Hd & _).
  split; [exact Hi|exact Hd].
Defined.

Lemma clear_cookie_database_failure_witness :
  let w := flaky_page (flaky_config false false false false)
                      (flaky_db false false true) old_cookie in
  (cfg_clear_cookie (config w) = (Ret tt, config w) /\
   db_clear_cookies (C := FlakyCfg) (db_handler w)
   = (Raise db_error, db_handler w)) /\
  cookie_input (post (clear_cookie Yes w)) = [] /\
  cookie_status_label (post (clear_cookie Yes w)) = cookie_status_label w.
Proof.
  intros w.
  assert (H1 : cfg_clear_cookie (config w) = (Ret tt, config w))
    by reflexivity.
  assert (H2 : db_clear_cookies (C := FlakyCfg) (db_handler w)
               = (Raise db_error, db_handler w)) by reflexivity.
  split; [auto|].
  destruct (@clear_cookie_database_failure _ _ _ _ w _ _ _ H1 H2)
    as (_ & Hi & _ & Hl).
  split; [exact Hi|exact Hl].
Defined.

Lemma clear_database_outcomes_witness :
  let w := flaky_page (flaky_config false false false false)
                      (flaky_db false false true) old_cookie in
  db_clear_database (C := FlakyCfg) (db_handler w)
  = (Raise db_error, db_handler w) /\
  clear_database Yes w
  = Run (Ret tt) w [Ask AskClearDatabase Yes; DbClearDatabase;
                    MsgBox Critical (DatabaseClearFailed db_error)].
Proof.
  intros w.
  assert (H1 : db_clear_database (C := FlakyCfg) (db_handler w)
               = (Raise db_error, db_handler w)) by reflexivity.
  split; [exact H1|].
  exact (@clear_database_outcomes _ _ _ _ w _ _ H1).
Defined.

Lemma destructive_calls_need_yes_witness :
  let w := page_with_old [] in
  let l := [TypeCookie good_cookie; ClickClearDatabase Yes] in
  In DbClearDatabase (log (dispatch_all l w)) /\
  In (ClickClearDatabase Yes) l.
Proof.
  intros w l.
  assert (H1 : In DbClearDatabase (log (dispatch_all l w)))
    by (right; left; reflexivity).
  split; [exact H1|].
  exact (proj1 (@destructive_calls_need_yes _ _ _ _ l w) H1).
Defined.

Lemma database_save_origin_witness :
  let w := page_with_old good_cookie in
  In (DbSaveCookie good_cookie) (log (dispatch ClickSave w)) /\
  ((ClickSave = ClickSave /\ good_cookie = Py.strip (cookie_input w)) \/
   ClickSave = CookieReady good_cookie).
Proof.
  intros w.
  assert (H1 : In (DbSaveCookie good_cookie) (log (dispatch ClickSave w)))
    by (right; right; left; reflexivity).
  split; [exact H1|].
  exact (@database_save_origin _ _ _ _ ClickSave w good_cookie H1).
Defined.

Lemma reachable_assignments_in_range_witness :
  let c := {| DELAY_MIN := 500; DELAY_MAX := 3; MAX_RETRIES := 3;
              cfg_rest := {| active_cookie := None |} |} in
  let d := ref_db None false in
  let l := [SpinChange DelayMax 7] in
  In (CfgAssign DelayMin 100) (log (dispatch_all l (post (new_page c d)))) /\
  value_in_range DelayMin 100.
Proof.
  intros c d l.
  assert (H1 : In (CfgAssign DelayMin 100)
                  (log (dispatch_all l (post (new_page c d)))))
    by (left; reflexivity).
  split; [exact H1|].
  exact (@reachable_assignments_in_range _ _ _ _ c d l DelayMin 100%Z H1).
Defined.

Lemma spin_same_value_noop_witness :
  let w := page_with_old [] in
  in_range MaxRetries 3 = spin_value MaxRetries w /\
  dispatch (SpinChange MaxRetries 3) w = Run (Ret tt) w [].
Proof.
  intros w.
  assert (H1 : in_range MaxRetries 3 = spin_value MaxRetries w)
    by reflexivity.
  split; [exact H1|].
  exact (@spin_same_value_noop _ _ _ _ w MaxRetries 3%Z H1).
Defined.

Lemma no_cross_field_check_witness :
  let w := page_with_old [] in
  let w' := post (dispatch (SpinChange DelayMin 50) w) in
  ((0 <= 50 <= 100)%Z /\ 50%Z <> min_delay w) /\
  DELAY_MIN (config w') = 50%Z /\ DELAY_MAX (config w') = 3%Z.
Proof.
  intros w w'.
  assert (H1 : (0 <= 50 <= 100)%Z) by lia.
  assert (H2 : 50%Z <> min_delay w) by (vm_compute; discriminate).
  split; [auto|].
  destruct (@no_cross_field_check _ _ _ _ w 50%Z H1 H2) as (Ha & Hb & _).
  split; [exact Ha|exact Hb].
Defined.

Lemma show_cookie_helper_effects_witness :
  let w := flaky_page (flaky_config false false false true)
                      (flaky_db false false false) [] in
  new_cookie_helper (config w) (db_handler w) = Raise cfg_error /\
  show_cookie_helper w
  = Run (Ret tt) w [HelperNew; MsgBox Critical (HelperStartFailed cfg_error)].
Proof.
  intros w.
  assert (H1 : new_cookie_helper (config w) (db_handler w) = Raise cfg_error)
    by reflexivity.
  split; [exact H1|].
  exact (proj1 (proj2 (@show_cookie_helper_effects _ _ _ _ w)) _ H1).
Defined.

Lemma closeEvent_cleans_once_witness :
  let w := flaky_page (flaky_config false false false false)
                      (flaky_db false false false) [] in
  let cleanup := fun _ : nat => Ret tt in
  (forall h, cookie_helper w = Some h -> cleanup h = Ret tt) /\
  cleaned (closeEvent cleanup w) = [0%nat] /\
  cookie_helper (close_page (closeEvent cleanup w)) = None.
Proof.
  intros w cleanup.
  assert (H1 : forall h, cookie_helper w = Some h -> cleanup h = Ret tt)
    by (intros h _; reflexivity).
  split; [exact H1|].
  destruct (@closeEvent_cleans_once _ _ _ cleanup w H1)
    as (_ & _ & Hn & Hc & _).
  split; [exact Hc|exact Hn].
Defined.


Lemma replaced_helper_not_cleaned_witness :
  let w := flaky_page (flaky_config false false false false)
                      (flaky_db false false false) [] in
  let cleanup := fun _ : nat => Ret tt in
  (cookie_helper w = Some 0%nat /\
   new_cookie_helper (config w) (db_handler w) = Ret 1%nat) /\
  cleaned (closeEvent cleanup (post (show_cookie_helper w))) = [1%nat].
Proof.
  intros w cleanup.
  assert (H1 : cookie_helper w = Some 0%nat) by reflexivity.
  assert (H2 : new_cookie_helper (config w) (db_handler w) = Ret 1%nat)
    by reflexivity.
  split; [auto|].
  exact (@replaced_helper_not_cleaned _ _ _ _ cleanup w _ _ H1 H2).
Defined.

Lemma on_cookie_received_failed_reload_witness :
  let w := flaky_page (flaky_config false false false false)
                      (flaky_db true false false) [] in
  let d1 := flaky_hold (Some (good_cookie, false)) (db_handler w) in
  (cfg_set_cookie good_cookie (config w) = (Ret true, config w) /\
   db_save_cookie (C := FlakyCfg) good_cookie (db_handler w) = (Ret tt, d1) /\
   db_get_valid_cookie (C := FlakyCfg) d1 = (Raise db_error, d1)) /\
  log (on_cookie_received good_cookie w)
  = [CfgSetCookie good_cookie; DbSaveCookie good_cookie; DbGetValidCookie;
     MsgBox Critical (LoadFailed db_error);
     MsgBox Information CookieObtained] /\
  cookie_input (post (on_cookie_received good_cookie w)) = good_cookie.
Proof.
  intros w d1.
  assert (H1 : cfg_set_cookie good_cookie (config w) = (Ret true, config w))
    by reflexivity.
  assert (H2 : db_save_cookie (C := FlakyCfg) good_cookie (db_handler w)
               = (Ret tt, d1)) by reflexivity.
  assert (H3 : db_get_valid_cookie (C := FlakyCfg) d1 = (Raise db_error, d1))
    by reflexivity.
  split; [auto|].
  destruct (@on_cookie_received_failed_reload _ _ _ _ w _ _ _ _ _ H1 H2 H3)
    as (L & Hi & _).
  split; [exact L|exact Hi].
Defined.

Lemma new_page_effects_witness :
  let c := ref_config None in
  let big := {| DELAY_MIN := 2147483648; DELAY_MAX := 3; MAX_RETRIES := 3;
                cfg_rest := {| active_cookie := None |} |} in
  let d := ref_db (Some (old_cookie, false)) false in
  (config_fits c = true /\ config_fits big = false) /\
  (exists r, SettingsPage_init (H := unit) c d = Ret r /\
             config (post r) = c /\
             calls is_db_call (log r) = [DbGetValidCookie]) /\
  SettingsPage_init (H := unit) big d = Raise overflow_error.
Proof.
  intros c big d.
  assert (H1 : config_fits c = true) by reflexivity.
  assert (H2 : config_fits big = false) by reflexivity.
  split; [auto|]. split.
  - destruct (proj1 (@new_page_effects _ _ unit _ c d) H1)
      as (r & Er & Hc & _ & Hl & _).
    exists r. auto.
  - exact (proj2 (@new_page_effects _ _ unit _ big d) H2).
Defined.
